(** * Lambda cost calculator: pricing table, cost estimator and report

    A shallow embedding of [consts.py] and of [lambda_cost_calculator.py]:
    the pricing table, the estimator, the choice of the clients, the metric
    queries, the scan of the regions and of their pages, the report and the
    tables put out.  The services answer through a record of functions; the
    time window of the metric queries and the rendering of the tables as
    text are not modelled.

    Conventions of the embedding.
    - Python [int] values are [Z].
    - Python [float] values are read in two ways.  In [consts] and
      [lambda_cost_calculator] they are exact rationals [Q], numeric
      comparison ([==], [<]) being [Qeq] / [Qlt]: the arithmetic of the
      program without its rounding.  In [binary64] they are the doubles of
      the hardware, with their rounding, their infinities and NaN: the
      program to the last place, for what depends on it.
    - A [dict] literal is the association list of its entries in the order
      they are written, which is the order [keys()] iterates them in.
    - An exception is a value of [Py.result]. *)

From Stdlib Require Import ZArith QArith Qround List String.
From Stdlib Require Import Lia Lqa Permutation Sorted.
From Stdlib Require Qpower Floats.
Import ListNotations.
Open Scope Z_scope.

(** ** The Python builtins the program calls *)

Module Py.

Inductive exn : Set := ValueError | KeyError | OverflowError.

Inductive result (A : Type) : Type :=
| Ok (a : A)
| Raise (e : exn).
Arguments Ok {A} a.
Arguments Raise {A} e.

Definition bind {A B : Type} (r : result A) (k : A -> result B) : result B :=
  match r with
  | Ok a => k a
  | Raise e => Raise e
  end.

(** [min(l, key=f)] keeps the first element whose key is smallest: the
    running best is replaced only by a strictly smaller key. *)
Fixpoint min_from {A : Type} (key : A -> Z) (best : A) (l : list A) : A :=
  match l with
  | [] => best
  | x :: l' => min_from key (if (key x <? key best)%Z then x else best) l'
  end.

Definition min {A : Type} (key : A -> Z) (l : list A) : result A :=
  match l with
  | [] => Raise ValueError
  | x :: l' => Ok (min_from key x l')
  end.

(** [d[k]] *)
Fixpoint getitem {V : Type} (d : list (Z * V)) (k : Z) : result V :=
  match d with
  | [] => Raise KeyError
  | (k', v) :: d' => if (k' =? k)%Z then Ok v else getitem d' k
  end.

Definition keys {V : Type} (d : list (Z * V)) : list Z := map fst d.

(** [int(x)]: truncation towards zero. *)
Definition int (x : Q) : Z :=
  if Qle_bool 0%Q x then Qfloor x else Qceiling x.

(** [math.ceil] *)
Definition ceil (x : Q) : Z := Qceiling x.

(** Rounding to the nearest integer, halves to the even neighbour. *)
Definition round_half_even (x : Q) : Z :=
  let f := Qfloor x in
  match (x - inject_Z f ?= 1 # 2)%Q with
  | Lt => f
  | Gt => (f + 1)%Z
  | Eq => if Z.even f then f else (f + 1)%Z
  end.

(** [for x in l: st = body(st, x)], stopping at the first exception. *)
Fixpoint for_each {S A : Type} (body : S -> A -> result S)
                  (st : S) (l : list A) : result S :=
  match l with
  | [] => Ok st
  | x :: l' =>
      match body st x with
      | Ok st' => for_each body st' l'
      | Raise e => Raise e
      end
  end.

(** [list.sort(key=f, reverse=True)]: a stable sort by descending key.
    Rows with equal keys keep the order they had. *)
Fixpoint insert_desc {A : Type} (key : A -> Q) (x : A) (l : list A) : list A :=
  match l with
  | [] => [x]
  | y :: l' =>
      if Qle_bool (key y) (key x) then x :: y :: l'
      else y :: insert_desc key x l'
  end.

Fixpoint sort_reverse {A : Type} (key : A -> Q) (l : list A) : list A :=
  match l with
  | [] => []
  | x :: l' => insert_desc key x (sort_reverse key l')
  end.

(** [d[k]] for a dict with text keys. *)
Fixpoint getitem_str {V : Type} (d : list (string * V)) (k : string)
  : result V :=
  match d with
  | [] => Raise KeyError
  | (k', v) :: d' => if (k' =? k)%string then Ok v else getitem_str d' k
  end.

(** The truth value of an optional text: [None] and [''] are false. *)
Definition truthy (s : option string) : bool :=
  match s with
  | None => false
  | Some s => negb (s =? "")%string
  end.

End Py.

Notation "x <- e ;; k" := (Py.bind e (fun x => k))
  (at level 61, e at next level, right associativity).

(** ** consts.py *)

Module consts.

Definition PRICE_PER_INVOCATION : Q := 0.0000002%Q.
Definition PRICE_INTERVALS_MS : Q := 100.0%Q.

Definition MEMORY_TO_PRICE : list (Z * Q) :=
  [ (128, 0.000000208%Q); (192, 0.000000313%Q); (256, 0.000000417%Q);
    (320, 0.000000521%Q); (384, 0.000000625%Q); (448, 0.000000729%Q);
    (512, 0.000000834%Q); (576, 0.000000938%Q); (640, 0.000001042%Q);
    (704, 0.000001146%Q); (768, 0.000001250%Q); (832, 0.000001354%Q);
    (896, 0.000001459%Q); (960, 0.000001563%Q); (1024, 0.000001667%Q);
    (1088, 0.000001771%Q); (1152, 0.000001875%Q); (1216, 0.000001980%Q);
    (1280, 0.000002045%Q); (1344, 0.000002188%Q); (1408, 0.000002292%Q);
    (1472, 0.000002396%Q); (1536, 0.000002501%Q); (1600, 0.000002605%Q);
    (1664, 0.000002709%Q); (1728, 0.000002813%Q); (1792, 0.000002917%Q);
    (1856, 0.000003021%Q); (1920, 0.000003126%Q); (1984, 0.000003230%Q);
    (2048, 0.000003334%Q); (2112, 0.000003438%Q); (2176, 0.000003542%Q);
    (2240, 0.000003647%Q); (2304, 0.000003751%Q); (2368, 0.000003855%Q);
    (2432, 0.000003959%Q); (2496, 0.000004063%Q); (2560, 0.000004168%Q);
    (2624, 0.000004272%Q); (2688, 0.000004376%Q); (2752, 0.000004480%Q);
    (2816, 0.000004584%Q); (2880, 0.000004688%Q); (2944, 0.000004793%Q);
    (3008, 0.000004897%Q) ].

(** The tier [min] selects: the key closest to [memory_size]. *)
Definition function_memory (memory_size : Z) : Py.result Z :=
  Py.min (fun x => Z.abs (x - memory_size)) (Py.keys MEMORY_TO_PRICE).

Definition get_price_by_memory (memory_size : Z) : Py.result Q :=
  function_memory <- function_memory memory_size ;;
  Py.getitem MEMORY_TO_PRICE function_memory.

Definition TABLE_HEADERS : list string :=
  [ "Function"; "Region"; "Memory (MB)";
    "Average Running Duration in the Last Day (ms)";
    "Number of Invocations in the Last Day";
    "Cost in the Last Day ($)";
    "Monthly Cost Estimation ($)" ]%string.

Definition CONSOLE_TABLE_HEADERS : list string :=
  [ "Function"; "Region"; "Cost in the Last Day ($)";
    "Monthly Cost Estimation ($)" ]%string.

End consts.

(** ** lambda_cost_calculator.py *)

Module lambda_cost_calculator.
Import consts.

Definition calculate_cost (avg_duration sum_invocations : Q)
                          (memory_size : Z) : Py.result Q :=
  price <- get_price_by_memory memory_size ;;
  Py.Ok (inject_Z (Py.ceil (avg_duration / PRICE_INTERVALS_MS)) *
         sum_invocations *
         price +
         sum_invocations * PRICE_PER_INVOCATION)%Q.

(** One function as the listing and the two metric queries describe it. *)
Record function_data : Type := {
  FunctionName : string;
  region : string;
  MemorySize : Z;
  sum_invocations : Q;
  avg_duration : Q
}.

(** A cell of a report row that may hold the marker. *)
Inductive cell : Set :=
| RESULT_NA                   (* the text 'N/A' *)
| Int (z : Z)                 (* int(...) *)
| Fixed3 (thousandths : Z).   (* '{0:.3f}'.format(...): the decimal text of
                                 thousandths/1000 with three decimals *)

(** ['{0:.3f}'.format(x)] *)
Definition format3 (x : Q) : cell := Fixed3 (Py.round_half_even (x * 1000)%Q).

(** [float(s)] on a text produced by [format3]. *)
Definition float (thousandths : Z) : Q := (inject_Z thousandths / 1000)%Q.

(** The seven-element tuple appended to [lambdas_data]. *)
Record row : Type := {
  x0 : string;   (* Function *)
  x1 : string;   (* Region *)
  x2 : Z;        (* Memory (MB) *)
  x3 : cell;     (* Average Running Duration in the Last Day (ms) *)
  x4 : cell;     (* Number of Invocations in the Last Day *)
  x5 : cell;     (* Cost in the Last Day ($) *)
  x6 : cell      (* Monthly Cost Estimation ($) *)
}.

Definition make_row (f : function_data) (period_cost : Q) : row :=
  let na := Qeq_bool (avg_duration f) 0%Q in
  {| x0 := FunctionName f;
     x1 := region f;
     x2 := MemorySize f;
     x3 := if na then RESULT_NA else Int (Py.int (avg_duration f));
     x4 := if na then RESULT_NA else Int (Py.int (sum_invocations f));
     x5 := if na then RESULT_NA else format3 period_cost;
     x6 := if na then RESULT_NA else format3 (period_cost * 30)%Q |}.

(** The state of the main loop: [lambdas_data] and [total_monthly_cost]. *)
Definition acc : Type := (list row * Q)%type.

(** The body of [for function_data in functions]. *)
Definition loop_body (st : acc) (f : function_data) : Py.result acc :=
  let '(lambdas_data, total_monthly_cost) := st in
  period_cost <- calculate_cost (avg_duration f) (sum_invocations f)
                                (MemorySize f) ;;
  Py.Ok (lambdas_data ++ [make_row f period_cost],
         (total_monthly_cost + period_cost * 30)%Q).

(** The loops over regions, pages and functions, run over the functions in
    the order they are discovered. *)
Definition loop (st : acc) (functions : list function_data)
  : Py.result acc :=
  Py.for_each loop_body st functions.

(** The key of the final sort. *)
Definition sort_key (x : row) : Q :=
  match x5 x with
  | RESULT_NA => 0%Q
  | Int z => inject_Z z
  | Fixed3 t => float t
  end.

(** [print_lambda_cost] up to the printing: the sorted table and the
    total. *)
Definition print_lambda_cost (functions : list function_data)
  : Py.result acc :=
  st <- loop ([], 0%Q) functions ;;
  Py.Ok (Py.sort_reverse sort_key (fst st), snd st).

(** *** The clients and what they answer *)

(** The command line: [--csv], [--token-key-id], [--token-secret],
    [--profile], each [None] when absent. *)
Record Namespace : Type := {
  csv : option string;
  token_key_id : option string;
  token_secret : option string;
  profile : option string
}.

(** How a client is built. *)
Inductive client : Type :=
| client_with_keys (client_name aws_access_key_id aws_secret_access_key
                    region_name : string)
| session_client (profile_name client_name region_name : string)
| default_client (client_name region_name : string).

Definition text (s : option string) : string :=
  match s with
  | Some s => s
  | None => ""%string
  end.

Definition init_boto_client (client_name region : string) (args : Namespace)
  : client :=
  if (Py.truthy (token_key_id args) && Py.truthy (token_secret args))%bool
  then client_with_keys client_name (text (token_key_id args))
                        (text (token_secret args)) region
  else if Py.truthy (profile args)
  then session_client (text (profile args)) client_name region
  else default_client client_name region.

(** A datapoint of a metric: its statistics by name. *)
Definition datapoint : Type := list (string * Q).

(** An element of [response['Functions']]. *)
Record listed : Type := {
  listed_FunctionName : string;
  listed_MemorySize : Z
}.

(** The answer to [list_functions]; [NextMarker] may be missing. *)
Record response : Type := {
  Functions : list listed;
  NextMarker : option string
}.

(** The services behind the clients: the regions of Lambda, the pages of
    [list_functions] (without and with a [Marker]) and the datapoints of
    [get_metric_statistics] for a metric name, a statistic and a function
    name over the last day. *)
Record aws : Type := {
  get_available_regions : list string;
  list_functions : client -> option string -> response;
  get_metric_statistics : client -> string -> string -> string
                          -> list datapoint
}.

Definition list_available_lambda_regions (cloud : aws) : list string :=
  get_available_regions cloud.

Definition get_cloudwatch_metric (cloud : aws) (cloudwatch_client : client)
                                 (metric_name statistic function_name : string)
  : Py.result Q :=
  match get_metric_statistics cloud cloudwatch_client metric_name statistic
                              function_name with
  | [] => Py.Ok 0%Q
  | first :: _ => Py.getitem_str first statistic
  end.

(** The two metric queries made for a listed function. *)
Definition fetch (cloud : aws) (cloudwatch_client : client) (region : string)
                 (fd : listed) : Py.result function_data :=
  sum_invocations <- get_cloudwatch_metric cloud cloudwatch_client
                       "Invocations" "Sum" (listed_FunctionName fd) ;;
  avg_duration <- get_cloudwatch_metric cloud cloudwatch_client
                    "Duration" "Average" (listed_FunctionName fd) ;;
  Py.Ok {| FunctionName := listed_FunctionName fd;
           region := region;
           MemorySize := listed_MemorySize fd;
           sum_invocations := sum_invocations;
           avg_duration := avg_duration |}.

(** The body of [for function_data in functions], metric queries
    included. *)
Definition function_body (cloud : aws) (cloudwatch_client : client)
                         (region : string) (st : acc) (fd : listed)
  : Py.result acc :=
  f <- fetch cloud cloudwatch_client region fd ;;
  loop_body st f.

(** [while next_marker != '']: one unit of fuel for each test of the
    condition; [None] when the fuel runs out.  [next_marker] and [response]
    are the values the two variables have when the condition is tested.
    After [continue], and when the page has no [NextMarker], [next_marker]
    is [''] and the loop ends. *)
Fixpoint while_next_marker (fuel : nat) (cloud : aws)
           (lambda_client cloudwatch_client : client) (region : string)
           (next_marker : option string) (response : response) (st : acc)
  : option (Py.result acc) :=
  match fuel with
  | O => None
  | S fuel' =>
      match next_marker with
      | Some ""%string => Some (Py.Ok st)
      | _ =>
          match Functions response with
          | [] => Some (Py.Ok st)
          | functions =>
              match Py.for_each
                      (function_body cloud cloudwatch_client region)
                      st functions with
              | Py.Raise e => Some (Py.Raise e)
              | Py.Ok st' =>
                  match NextMarker response with
                  | None => Some (Py.Ok st')
                  | Some marker =>
                      while_next_marker fuel' cloud lambda_client
                        cloudwatch_client region (Some marker)
                        (list_functions cloud lambda_client (Some marker))
                        st'
                  end
              end
          end
      end
  end.

(** The body of [for region in progress_bar(regions)]. *)
Definition region_body (fuel : nat) (cloud : aws) (args : Namespace)
                       (st : acc) (region : string)
  : option (Py.result acc) :=
  let lambda_client := init_boto_client "lambda" region args in
  let cloudwatch_client := init_boto_client "cloudwatch" region args in
  while_next_marker fuel cloud lambda_client cloudwatch_client region
                    None (list_functions cloud lambda_client None) st.

Fixpoint for_regions (fuel : nat) (cloud : aws) (args : Namespace)
                     (st : acc) (regions : list string)
  : option (Py.result acc) :=
  match regions with
  | [] => Some (Py.Ok st)
  | region :: regions' =>
      match region_body fuel cloud args st region with
      | Some (Py.Ok st') => for_regions fuel cloud args st' regions'
      | other => other
      end
  end.

(** A value of a table line. *)
Inductive value : Type :=
| Str (s : string)
| Num (z : Z)
| Cell (c : cell).

(** The row as the tuple of its seven values. *)
Definition values (x : row) : list value :=
  [Str (x0 x); Str (x1 x); Num (x2 x);
   Cell (x3 x); Cell (x4 x); Cell (x5 x); Cell (x6 x)].

(** The table [print_table_to_console] hands to [AsciiTable]. *)
Definition print_table_to_console (lambdas_data : list row)
  : list (list value) :=
  let lambdas_data :=
    map (fun x => [Str (x0 x); Str (x1 x); Cell (x5 x); Cell (x6 x)])
        lambdas_data in
  map Str CONSOLE_TABLE_HEADERS :: lambdas_data.

(** What a run puts out: the console table, the total, and the lines of the
    CSV file when one is asked for. *)
Record output : Type := {
  console : list (list value);
  total : Q;
  csv_file : option (list (list value))
}.

(** [print_lambda_cost] on the services. *)
Definition print_lambda_cost_on (fuel : nat) (cloud : aws) (args : Namespace)
  : option (Py.result output) :=
  let regions := list_available_lambda_regions cloud in
  match for_regions fuel cloud args ([], 0%Q) regions with
  | None => None
  | Some (Py.Raise e) => Some (Py.Raise e)
  | Some (Py.Ok (lambdas_data, total_monthly_cost)) =>
      let lambdas_data := Py.sort_reverse sort_key lambdas_data in
      Some (Py.Ok
        {| console := print_table_to_console lambdas_data;
           total := total_monthly_cost;
           csv_file :=
             if Py.truthy (csv args)
             then Some (map Str TABLE_HEADERS :: map values lambdas_data)
             else None |})
  end.

End lambda_cost_calculator.

(** ** The program on binary64 floats

    The same program with the metrics, the prices and the costs as the
    doubles of the hardware: every product, sum and quotient is rounded as
    Python rounds it, and infinities and NaN are values. *)

Module binary64.
Import PrimFloat SpecFloat FloatOps.
Local Open Scope float_scope.
Set Warnings "-inexact-float".

(** The value of a double that is neither infinite nor NaN. *)
Definition value (x : float) : Q :=
  match Prim2SF x with
  | S754_finite s m e =>
      ((if s then -1 else 1) * inject_Z (Zpos m) * 2 ^ e)%Q
  | _ => 0%Q
  end.

(** [math.ceil] *)
Definition ceil (x : float) : Py.result Z :=
  match Prim2SF x with
  | S754_nan => Py.Raise Py.ValueError
  | S754_infinity _ => Py.Raise Py.OverflowError
  | _ => Py.Ok (Qceiling (value x))
  end.

(** [int(x)] of a float. *)
Definition int (x : float) : Py.result Z :=
  match Prim2SF x with
  | S754_nan => Py.Raise Py.ValueError
  | S754_infinity _ => Py.Raise Py.OverflowError
  | _ => Py.Ok (Py.int (value x))
  end.

(** The float an int becomes in a product with a float: the nearest
    double, [OverflowError] for an int that rounds beyond the largest
    double, that is one of magnitude 2^1024 - 2^970 or more. *)
Definition of_int (k : Z) : Py.result float :=
  if (Z.abs k <? 2 ^ 1024 - 2 ^ 970)%Z
  then Py.Ok (SF2Prim (binary_normalize prec emax k 0 false))
  else Py.Raise Py.OverflowError.

Definition PRICE_PER_INVOCATION : float := 0.0000002.
Definition PRICE_INTERVALS_MS : float := 100.0.

Definition MEMORY_TO_PRICE : list (Z * float) :=
  [ (128%Z, 0.000000208); (192%Z, 0.000000313); (256%Z, 0.000000417);
    (320%Z, 0.000000521); (384%Z, 0.000000625); (448%Z, 0.000000729);
    (512%Z, 0.000000834); (576%Z, 0.000000938); (640%Z, 0.000001042);
    (704%Z, 0.000001146); (768%Z, 0.000001250); (832%Z, 0.000001354);
    (896%Z, 0.000001459); (960%Z, 0.000001563); (1024%Z, 0.000001667);
    (1088%Z, 0.000001771); (1152%Z, 0.000001875); (1216%Z, 0.000001980);
    (1280%Z, 0.000002045); (1344%Z, 0.000002188); (1408%Z, 0.000002292);
    (1472%Z, 0.000002396); (1536%Z, 0.000002501); (1600%Z, 0.000002605);
    (1664%Z, 0.000002709); (1728%Z, 0.000002813); (1792%Z, 0.000002917);
    (1856%Z, 0.000003021); (1920%Z, 0.000003126); (1984%Z, 0.000003230);
    (2048%Z, 0.000003334); (2112%Z, 0.000003438); (2176%Z, 0.000003542);
    (2240%Z, 0.000003647); (2304%Z, 0.000003751); (2368%Z, 0.000003855);
    (2432%Z, 0.000003959); (2496%Z, 0.000004063); (2560%Z, 0.000004168);
    (2624%Z, 0.000004272); (2688%Z, 0.000004376); (2752%Z, 0.000004480);
    (2816%Z, 0.000004584); (2880%Z, 0.000004688); (2944%Z, 0.000004793);
    (3008%Z, 0.000004897) ].

Definition function_memory (memory_size : Z) : Py.result Z :=
  Py.min (fun x => Z.abs (x - memory_size)) (Py.keys MEMORY_TO_PRICE).

Definition get_price_by_memory (memory_size : Z) : Py.result float :=
  function_memory <- function_memory memory_size ;;
  Py.getitem MEMORY_TO_PRICE function_memory.

Definition calculate_cost (avg_duration sum_invocations : float)
                          (memory_size : Z) : Py.result float :=
  intervals <- ceil (avg_duration / PRICE_INTERVALS_MS) ;;
  intervals <- of_int intervals ;;
  price <- get_price_by_memory memory_size ;;
  Py.Ok (intervals * sum_invocations * price +
         sum_invocations * PRICE_PER_INVOCATION).

Record function_data : Type := {
  FunctionName : string;
  region : string;
  MemorySize : Z;
  sum_invocations : float;
  avg_duration : float
}.

(** The text ['{0:.3f}'.format] gives: a sign and the digits, as a number
    of thousandths, or the text of an infinity or of NaN. *)
Inductive text3 : Set :=
| Fixed3 (negative : bool) (thousandths : N)     (* '0.015', '-0.000' *)
| Text_inf (negative : bool)                     (* 'inf', '-inf' *)
| Text_nan.                                      (* 'nan' *)

(** A cell of a report row that may hold the marker. *)
Inductive cell : Set :=
| RESULT_NA                   (* 'N/A' *)
| Int (z : Z)                 (* int(...) *)
| Formatted (t : text3).      (* '{0:.3f}'.format(...) *)

(** ['{0:.3f}'.format(x)]: the value of the double, rounded to three
    decimals, halves to the even neighbour. *)
Definition format3 (x : float) : text3 :=
  match Prim2SF x with
  | S754_nan => Text_nan
  | S754_infinity s => Text_inf s
  | S754_zero s => Fixed3 s 0
  | S754_finite s m e =>
      Fixed3 s (Z.to_N (Py.round_half_even
                          (inject_Z (Zpos m) * 2 ^ e * 1000)%Q))
  end.

(** [float(s)] on a text of [format3]: the nearest double. *)
Definition float_of_text (t : text3) : float :=
  match t with
  | Fixed3 s 0%N => if s then -0.0 else 0.0
  | Fixed3 s (Npos t) =>
      SF2Prim (SFdiv prec emax (S754_finite s t 0)
                     (S754_finite false 1000 0))
  | Text_inf s => if s then neg_infinity else infinity
  | Text_nan => nan
  end.

Record row : Type := {
  x0 : string;
  x1 : string;
  x2 : Z;
  x3 : cell;
  x4 : cell;
  x5 : cell;
  x6 : cell
}.

(** The tuple appended to [lambdas_data]; its elements are evaluated from
    left to right. *)
Definition make_row (f : function_data) (period_cost : float)
  : Py.result row :=
  let na := (avg_duration f =? 0) in
  x3 <- (if na then Py.Ok RESULT_NA
         else z <- int (avg_duration f) ;; Py.Ok (Int z)) ;;
  x4 <- (if na then Py.Ok RESULT_NA
         else z <- int (sum_invocations f) ;; Py.Ok (Int z)) ;;
  Py.Ok {| x0 := FunctionName f;
           x1 := region f;
           x2 := MemorySize f;
           x3 := x3;
           x4 := x4;
           x5 := if na then RESULT_NA else Formatted (format3 period_cost);
           x6 := if na then RESULT_NA
                 else Formatted (format3 (period_cost * 30)) |}.

Definition acc : Type := (list row * float)%type.

Definition loop_body (st : acc) (f : function_data) : Py.result acc :=
  let '(lambdas_data, total_monthly_cost) := st in
  period_cost <- calculate_cost (avg_duration f) (sum_invocations f)
                                (MemorySize f) ;;
  x <- make_row f period_cost ;;
  Py.Ok (lambdas_data ++ [x], total_monthly_cost + period_cost * 30).

Definition loop (st : acc) (functions : list function_data)
  : Py.result acc :=
  Py.for_each loop_body st functions.

Definition sort_key (x : row) : float :=
  match x5 x with
  | RESULT_NA => 0
  | Formatted t => float_of_text t
  | Int z => SF2Prim (binary_normalize prec emax z 0 false)
  end.

(** [list.sort(key=f, reverse=True)] on keys that are doubles. *)
Fixpoint insert_desc {A : Type} (key : A -> float) (x : A) (l : list A)
  : list A :=
  match l with
  | [] => [x]
  | y :: l' =>
      if (key y <=? key x) then x :: y :: l'
      else y :: insert_desc key x l'
  end.

Fixpoint sort_reverse {A : Type} (key : A -> float) (l : list A) : list A :=
  match l with
  | [] => []
  | x :: l' => insert_desc key x (sort_reverse key l')
  end.

(** [print_lambda_cost] up to the printing: the sorted table, the total and
    the total as it is printed. *)
Definition print_lambda_cost (functions : list function_data)
  : Py.result (list row * float * text3) :=
  st <- loop ([], 0) functions ;;
  Py.Ok (sort_reverse sort_key (fst st), snd st, format3 (snd st)).

(** The value [calculate_cost] returns for a function, 0 when it raises. *)
Definition period_cost (f : function_data) : float :=
  match calculate_cost (avg_duration f) (sum_invocations f) (MemorySize f) with
  | Py.Ok cost => cost
  | Py.Raise _ => 0
  end.

Definition fn (memory : Z) (invocations duration : float) : function_data :=
  {| FunctionName := "fn"; region := "us-east-1"; MemorySize := memory;
     sum_invocations := invocations; avg_duration := duration |}.

(** Two functions whose daily costs, 0.0011016 and 0.0013872, both show as
    0.001. *)
Definition cheaper : function_data := fn 128 2700 100.
Definition dearer : function_data := fn 128 3400 100.

(** Three functions whose monthly estimates add up to about 0.1665. *)
Definition small : function_data := fn 768 100 100.
Definition medium : function_data := fn 128 500 100.
Definition large : function_data := fn 1024 1000 300.

End binary64.

Import consts lambda_cost_calculator.

(** ** Vocabulary of the statements *)

(** The value [calculate_cost] returns for a function.  The [Raise] branch is
    never taken ([calculate_cost_Ok] below). *)
Definition period_cost (f : function_data) : Q :=
  match calculate_cost (avg_duration f) (sum_invocations f) (MemorySize f) with
  | Py.Ok cost => cost
  | Py.Raise _ => 0%Q
  end.

(** The row the loop appends for a function, before the sort. *)
Definition row_of (f : function_data) : row := make_row f (period_cost f).

Definition Qsum (l : list Q) : Q := fold_right Qplus 0%Q l.

(** The number a cost cell shows, the marker counting as 0. *)
Definition shown (c : cell) : Q :=
  match c with
  | RESULT_NA => 0%Q
  | Int z => inject_Z z
  | Fixed3 t => float t
  end.

(** Descending order of a list under a key. *)
Definition descending {A : Type} (key : A -> Q) (l : list A) : Prop :=
  StronglySorted (fun a b => (key b <= key a)%Q) l.

(** The elements of [l] whose key is [q], in the order they have in [l]. *)
Definition with_key {A : Type} (key : A -> Q) (q : Q) (l : list A) : list A :=
  filter (fun x => Qeq_bool (key x) q) l.

(** ** Sample functions *)

Definition fn (memory : Z) (invocations duration : Q) : function_data :=
  {| FunctionName := "fn"; region := "us-east-1"; MemorySize := memory;
     sum_invocations := invocations; avg_duration := duration |}.

(** 512 MB, 1000 invocations of 250 ms on average. *)
Definition busy : function_data := fn 512 1000 250.

(** Invoked 1000 times, yet with an average duration of zero. *)
Definition idle_but_invoked : function_data := fn 512 1000 0.

(** No invocation and no duration. *)
Definition idle : function_data := fn 512 0 0.

(** Two functions whose daily costs, 0.0011016 and 0.0013872, both show as
    0.001. *)
Definition cheaper : function_data := fn 128 2700 100.
Definition dearer : function_data := fn 128 3400 100.

(** Functions whose monthly estimates show as 5.000 and 10.000. *)
Definition five : function_data := fn 128 408497 100.
Definition ten : function_data := fn 128 816994 100.

(** ** Vocabulary for the services *)

(** The functions of a sequence of pages up to the first page without
    functions. *)
Fixpoint until_empty (pages : list (list listed)) : list listed :=
  match pages with
  | [] => []
  | [] :: _ => []
  | page :: pages' => page ++ until_empty pages'
  end.

(** The pages [list_functions] serves from a marker on, each page reached
    through the [NextMarker] of the page before; the chain ends at a page
    without [NextMarker] or with an empty one. *)
Inductive paged (cloud : aws) (lambda_client : client)
  : option string -> list (list listed) -> Prop :=
| paged_last (marker : option string) :
    NextMarker (list_functions cloud lambda_client marker) = None ->
    paged cloud lambda_client marker
          [Functions (list_functions cloud lambda_client marker)]
| paged_stop (marker : option string) :
    NextMarker (list_functions cloud lambda_client marker) = Some ""%string ->
    paged cloud lambda_client marker
          [Functions (list_functions cloud lambda_client marker)]
| paged_next (marker : option string) (next : string)
             (pages : list (list listed)) :
    NextMarker (list_functions cloud lambda_client marker) = Some next ->
    next <> ""%string ->
    paged cloud lambda_client (Some next) pages ->
    paged cloud lambda_client marker
          (Functions (list_functions cloud lambda_client marker) :: pages).

(** The functions found in a list of regions, region after region and page
    after page, with the metrics read for them. *)
Inductive discovered (cloud : aws) (args : Namespace)
  : list string -> list function_data -> Prop :=
| discovered_nil : discovered cloud args [] []
| discovered_cons (region : string) (regions : list string)
                  (pages : list (list listed))
                  (found rest : list function_data) :
    paged cloud (init_boto_client "lambda" region args) None pages ->
    Forall2 (fun fd f =>
               fetch cloud (init_boto_client "cloudwatch" region args)
                     region fd = Py.Ok f)
            (until_empty pages) found ->
    discovered cloud args regions rest ->
    discovered cloud args (region :: regions) (found ++ rest).

(** [line[i]] for each [i] of a list of indices. *)
Definition pick (indices : list nat) (line : list value) : list value :=
  map (fun i => nth i line (Str "")) indices.

(** ** Sample services *)

Definition region_name_of (c : client) : string :=
  match c with
  | client_with_keys _ _ _ region_name => region_name
  | session_client _ _ region_name => region_name
  | default_client _ region_name => region_name
  end.

(** Two regions.  In [us-east-1] a first page with [resize] and [unused]
    leads to a second one with [mailer].  In [eu-west-1] the first page is
    empty and names a further page, with [hidden].  [resize] ran 1000 times
    for 250 ms on average, [unused] has no datapoint, [mailer] has two
    datapoints for each metric. *)
Definition sample_cloud : aws :=
  {| get_available_regions := ["us-east-1"; "eu-west-1"]%string;
     list_functions := fun c marker =>
       match region_name_of c, marker with
       | "us-east-1"%string, None =>
           {| Functions := [ {| listed_FunctionName := "resize";
                                listed_MemorySize := 512 |};
                             {| listed_FunctionName := "unused";
                                listed_MemorySize := 128 |} ];
              NextMarker := Some "page-2"%string |}
       | "us-east-1"%string, Some "page-2"%string =>
           {| Functions := [ {| listed_FunctionName := "mailer";
                                listed_MemorySize := 1000 |} ];
              NextMarker := None |}
       | "eu-west-1"%string, None =>
           {| Functions := []; NextMarker := Some "page-2"%string |}
       | "eu-west-1"%string, Some "page-2"%string =>
           {| Functions := [ {| listed_FunctionName := "hidden";
                                listed_MemorySize := 256 |} ];
              NextMarker := None |}
       | _, _ => {| Functions := []; NextMarker := None |}
       end;
     get_metric_statistics := fun c metric_name statistic function_name =>
       match function_name, metric_name with
       | "resize"%string, "Invocations"%string => [[("Sum"%string, 1000%Q)]]
       | "resize"%string, "Duration"%string => [[("Average"%string, 250%Q)]]
       | "mailer"%string, "Invocations"%string =>
           [[("Sum"%string, 40%Q)]; [("Sum"%string, 7%Q)]]
       | "mailer"%string, "Duration"%string =>
           [[("Average"%string, 30%Q)]; [("Average"%string, 900%Q)]]
       | "hidden"%string, "Invocations"%string => [[("Sum"%string, 5%Q)]]
       | "hidden"%string, "Duration"%string => [[("Average"%string, 10%Q)]]
       | _, _ => []
       end |}.

(** Services whose every page holds [resize] and names the page [again]. *)
Definition looping_cloud : aws :=
  {| get_available_regions := ["us-east-1"]%string;
     list_functions := fun _ _ =>
       {| Functions := [ {| listed_FunctionName := "resize";
                            listed_MemorySize := 512 |} ];
          NextMarker := Some "again"%string |};
     get_metric_statistics := fun _ _ _ _ => [] |}.

Definition no_args : Namespace :=
  {| csv := None; token_key_id := None; token_secret := None;
     profile := None |}.

Definition csv_args : Namespace :=
  {| csv := Some "out.csv"%string; token_key_id := None;
     token_secret := None; profile := None |}.

(** A key id without its secret, beside a profile. *)
Definition half_keyed : Namespace :=
  {| csv := None; token_key_id := Some "AKIA"%string; token_secret := None;
     profile := Some "dev"%string |}.

(** The functions the sample services make known. *)
Definition sample_found : list function_data :=
  [ {| FunctionName := "resize"; region := "us-east-1"; MemorySize := 512;
       sum_invocations := 1000; avg_duration := 250 |};
    {| FunctionName := "unused"; region := "us-east-1"; MemorySize := 128;
       sum_invocations := 0; avg_duration := 0 |};
    {| FunctionName := "mailer"; region := "us-east-1"; MemorySize := 1000;
       sum_invocations := 40; avg_duration := 30 |} ].

(** * Facts about the builtins *)

Section MinFacts.
Context {A : Type} (key : A -> Z).

Lemma min_from_In (l : list A) :
  forall best, In (Py.min_from key best l) (best :: l).
Proof.
  induction l as [| x l IH]; intros best; simpl.
  - now left.
  - destruct (IH (if key x <? key best then x else best)) as [E | H].
    + destruct (key x <? key best); rewrite <- E; auto.
    + auto.
Qed.

Lemma min_from_le (l : list A) :
  forall best x, In x (best :: l) -> key (Py.min_from key best l) <= key x.
Proof.
  induction l as [| y l IH]; intros best x Hx; simpl.
  - destruct Hx as [<- | []]. lia.
  - set (b := if key y <? key best then y else best).
    assert (Hb : key b <= key best /\ key b <= key y).
    { unfold b. destruct (Z.ltb_spec (key y) (key best)); lia. }
    destruct Hx as [<- | [<- | Hx]].
    + specialize (IH b b (or_introl eq_refl)). lia.
    + specialize (IH b b (or_introl eq_refl)). lia.
    + apply IH. now right.
Qed.

Lemma min_from_stay (l : list A) (best : A) :
  (forall x, In x l -> key best <= key x) -> Py.min_from key best l = best.
Proof.
  induction l as [| y l IH]; intros H; simpl; [reflexivity |].
  destruct (Z.ltb_spec (key y) (key best)) as [Hlt | _].
  - specialize (H y (or_introl eq_refl)). lia.
  - apply IH. intros x Hx. apply H. now right.
Qed.

Lemma min_from_first (l1 l2 : list A) (k : A) :
  (forall x, In x l1 -> key k < key x) ->
  (forall x, In x l2 -> key k <= key x) ->
  forall best, key k < key best ->
               Py.min_from key best (l1 ++ k :: l2) = k.
Proof.
  induction l1 as [| y l1 IH]; intros H1 H2 best Hb; simpl.
  - apply Z.ltb_lt in Hb. rewrite Hb. now apply min_from_stay.
  - apply IH; [| assumption |].
    + intros x Hx. apply H1. now right.
    + destruct (key y <? key best); [| assumption].
      apply H1. now left.
Qed.

(** [min] returns the first element among those of smallest key. *)
Lemma min_first (l1 l2 : list A) (k : A) :
  (forall x, In x l1 -> key k < key x) ->
  (forall x, In x l2 -> key k <= key x) ->
  Py.min key (l1 ++ k :: l2) = Py.Ok k.
Proof.
  intros H1 H2. destruct l1 as [| y l1]; simpl.
  - f_equal. now apply min_from_stay.
  - f_equal. apply min_from_first; auto.
    + intros x Hx. apply H1. now right.
    + apply H1. now left.
Qed.

Lemma min_total (l : list A) :
  l <> [] ->
  exists k, Py.min key l = Py.Ok k /\ In k l /\
            forall x, In x l -> key k <= key x.
Proof.
  destruct l as [| y l]; intros H; [congruence |].
  exists (Py.min_from key y l). split; [reflexivity |]. split.
  - apply min_from_In.
  - apply min_from_le.
Qed.

End MinFacts.

Section GetitemFacts.
Context {V : Type}.

Lemma getitem_In_keys (d : list (Z * V)) (k : Z) :
  In k (Py.keys d) -> exists v, Py.getitem d k = Py.Ok v /\ In (k, v) d.
Proof.
  induction d as [| [k' v'] d IH]; simpl; [tauto |].
  intros H. destruct (Z.eqb_spec k' k) as [-> | Hne].
  - exists v'. auto.
  - destruct H as [H | H]; [contradiction |].
    destruct (IH H) as (v & Hv & Hin). exists v. auto.
Qed.

Lemma getitem_NoDup (d : list (Z * V)) (k : Z) (v : V) :
  NoDup (Py.keys d) -> In (k, v) d -> Py.getitem d k = Py.Ok v.
Proof.
  induction d as [| [k' v'] d IH]; simpl; [tauto |].
  intros Hnd Hin. inversion Hnd as [| ? ? Hnot Hnd']; subst.
  destruct Hin as [E | Hin].
  - inversion E; subst. now rewrite Z.eqb_refl.
  - destruct (Z.eqb_spec k' k) as [-> | _].
    + exfalso. apply Hnot. unfold Py.keys.
      change k with (fst (k, v)). now apply in_map.
    + now apply IH.
Qed.

End GetitemFacts.

(** Sorted keys: what lies before and after a position. *)

Lemma sorted_lt_NoDup (l : list Z) : StronglySorted Z.lt l -> NoDup l.
Proof.
  induction 1 as [| a l _ IH Hall]; constructor; [| assumption].
  intros Hin. rewrite Forall_forall in Hall. specialize (Hall a Hin). lia.
Qed.

Lemma sorted_lt_app (l1 l2 : list Z) (a : Z) :
  StronglySorted Z.lt (l1 ++ a :: l2) ->
  (forall x, In x l1 -> x < a) /\ (forall x, In x l2 -> a < x).
Proof.
  induction l1 as [| y l1 IH]; simpl; intros H.
  - inversion H as [| ? ? _ Hall]; subst. rewrite Forall_forall in Hall.
    split; [tauto | exact Hall].
  - inversion H as [| ? ? Hs Hall]; subst. rewrite Forall_forall in Hall.
    destruct (IH Hs) as [Hl Hr]. split; [| assumption].
    intros x [<- | Hx]; [| auto].
    apply Hall. apply in_or_app. right. now left.
Qed.

(** * Facts about the pricing table *)

Lemma keys_sorted : StronglySorted Z.lt (Py.keys MEMORY_TO_PRICE).
Proof.
  apply Sorted_StronglySorted; [exact Z.lt_trans |].
  unfold Py.keys, MEMORY_TO_PRICE; simpl.
  repeat (constructor; try reflexivity).
Qed.

Lemma keys_NoDup : NoDup (Py.keys MEMORY_TO_PRICE).
Proof. apply sorted_lt_NoDup, keys_sorted. Qed.

Lemma keys_nonempty : Py.keys MEMORY_TO_PRICE <> [].
Proof. discriminate. Qed.

Lemma prices_positive :
  forall k p, In (k, p) MEMORY_TO_PRICE -> (0 < p)%Q.
Proof.
  assert (H : Forall (fun kp => (0 < snd kp)%Q) MEMORY_TO_PRICE).
  { unfold MEMORY_TO_PRICE. repeat (constructor; try reflexivity). }
  rewrite Forall_forall in H. intros k p Hin. exact (H _ Hin).
Qed.

(** The lookup never raises: it returns the price of a tier of the table,
    one that is at least as close to the input as every other tier. *)
Lemma get_price_by_memory_Ok (memory_size : Z) :
  exists k p,
    function_memory memory_size = Py.Ok k /\
    get_price_by_memory memory_size = Py.Ok p /\
    In (k, p) MEMORY_TO_PRICE /\
    forall k', In k' (Py.keys MEMORY_TO_PRICE) ->
               Z.abs (k - memory_size) <= Z.abs (k' - memory_size).
Proof.
  destruct (min_total (fun x => Z.abs (x - memory_size))
                      (Py.keys MEMORY_TO_PRICE) keys_nonempty)
    as (k & Hmin & Hin & Hle).
  destruct (getitem_In_keys MEMORY_TO_PRICE k Hin) as (p & Hget & Hp).
  exists k, p. unfold get_price_by_memory, function_memory in *.
  rewrite Hmin. cbn [Py.bind]. auto.
Qed.

(** A tier is found back by its own memory size, and priced as listed. *)
Lemma function_memory_tier (k : Z) (p : Q) :
  In (k, p) MEMORY_TO_PRICE ->
  function_memory k = Py.Ok k /\ get_price_by_memory k = Py.Ok p.
Proof.
  intros Hin.
  assert (Hk : In k (Py.keys MEMORY_TO_PRICE)).
  { unfold Py.keys. change k with (fst (k, p)). now apply in_map. }
  assert (Hmin : function_memory k = Py.Ok k).
  { unfold function_memory. pose proof keys_NoDup as Hnd.
    destruct (in_split _ _ Hk) as (l1 & l2 & E). rewrite E in Hnd |- *.
    apply min_first.
    - intros x Hx. assert (x <> k); [| lia].
      intros ->. apply (NoDup_remove_2 _ _ _ Hnd). apply in_or_app. now left.
    - intros x _. lia. }
  split; [assumption |].
  unfold get_price_by_memory. rewrite Hmin. cbn [Py.bind].
  apply getitem_NoDup; [apply keys_NoDup | assumption].
Qed.

(** Between two neighbouring tiers the nearer one is selected, the lower one
    when both are as near. *)
Lemma function_memory_between (t1 t2 : list (Z * Q)) (lo hi : Z) (plo phi : Q)
                              (m : Z) :
  MEMORY_TO_PRICE = t1 ++ (lo, plo) :: (hi, phi) :: t2 ->
  lo < m < hi ->
  function_memory m = Py.Ok (if m - lo <=? hi - m then lo else hi).
Proof.
  intros E Hm. pose proof keys_sorted as Hs.
  unfold function_memory. rewrite E in Hs |- *. unfold Py.keys in *.
  rewrite map_app in *. simpl in *.
  destruct (sorted_lt_app _ _ _ Hs) as [Hbefore _].
  change (map fst t1 ++ lo :: hi :: map fst t2)
    with (map fst t1 ++ [lo] ++ hi :: map fst t2) in Hs.
  rewrite app_assoc in Hs.
  destruct (sorted_lt_app _ _ _ Hs) as [_ Hafter].
  destruct (Z.leb_spec (m - lo) (hi - m)) as [Hle | Hgt].
  - apply min_first.
    + intros x Hx. specialize (Hbefore x Hx). lia.
    + intros x [<- | Hx]; [lia |]. specialize (Hafter x Hx). lia.
  - change (map fst t1 ++ lo :: hi :: map fst t2)
      with (map fst t1 ++ [lo] ++ hi :: map fst t2).
    rewrite app_assoc.
    apply min_first.
    + intros x Hx. apply in_app_or in Hx. destruct Hx as [Hx | [<- | []]].
      * specialize (Hbefore x Hx). lia.
      * lia.
    + intros x Hx. specialize (Hafter x Hx). lia.
Qed.

(** The estimator never raises, and its value is the formula of the source
    with the price of the selected tier. *)
Lemma calculate_cost_Ok (avg_duration sum_invocations : Q) (memory_size : Z) :
  exists k price,
    In (k, price) MEMORY_TO_PRICE /\
    get_price_by_memory memory_size = Py.Ok price /\
    calculate_cost avg_duration sum_invocations memory_size =
      Py.Ok (inject_Z (Py.ceil (avg_duration / PRICE_INTERVALS_MS)) *
             sum_invocations * price +
             sum_invocations * PRICE_PER_INVOCATION)%Q.
Proof.
  destruct (get_price_by_memory_Ok memory_size) as (k & p & _ & Hp & Hin & _).
  exists k, p. unfold calculate_cost. rewrite Hp. cbn [Py.bind]. auto.
Qed.

(** * The claims *)

(** C8: for every memory size that is a tier of the pricing table the lookup
    returns that tier's price; the memory sizes of the table are strictly
    increasing, and no two tiers share one. *)
Theorem exact_tier_price :
  (forall k p, In (k, p) MEMORY_TO_PRICE -> get_price_by_memory k = Py.Ok p) /\
  StronglySorted Z.lt (Py.keys MEMORY_TO_PRICE) /\
  NoDup (Py.keys MEMORY_TO_PRICE).
Proof.
  split; [| split].
  - intros k p Hin. now apply function_memory_tier.
  - exact keys_sorted.
  - exact keys_NoDup.
Qed.

(** The 512 MB tier is priced as listed. *)
Lemma exact_tier_price_witness :
  In (512, 0.000000834%Q) MEMORY_TO_PRICE /\
  get_price_by_memory 512 = Py.Ok 0.000000834%Q.
Proof.
  assert (H : In (512, 0.000000834%Q) MEMORY_TO_PRICE).
  { unfold MEMORY_TO_PRICE. simpl. tauto. }
  split; [exact H | exact (proj1 exact_tier_price 512 0.000000834%Q H)].
Defined.

(** C3: for a memory size strictly between two neighbouring tiers the lookup
    returns the price of the nearer tier, and at the exact midpoint the price
    of the lower tier. *)
Theorem nearest_tier_price (t1 t2 : list (Z * Q)) (lo hi : Z) (plo phi : Q)
                           (m : Z) :
  MEMORY_TO_PRICE = t1 ++ (lo, plo) :: (hi, phi) :: t2 ->
  lo < m < hi ->
  (m - lo < hi - m -> get_price_by_memory m = Py.Ok plo) /\
  (hi - m < m - lo -> get_price_by_memory m = Py.Ok phi) /\
  (m - lo = hi - m -> get_price_by_memory m = Py.Ok plo).
Proof.
  intros E Hm.
  pose proof (function_memory_between t1 t2 lo hi plo phi m E Hm) as Hmin.
  assert (Hlo : Py.getitem MEMORY_TO_PRICE lo = Py.Ok plo).
  { apply getitem_NoDup; [apply keys_NoDup |].
    rewrite E. apply in_or_app. right. now left. }
  assert (Hhi : Py.getitem MEMORY_TO_PRICE hi = Py.Ok phi).
  { apply getitem_NoDup; [apply keys_NoDup |].
    rewrite E. apply in_or_app. right. right. now left. }
  unfold get_price_by_memory. rewrite Hmin.
  destruct (Z.leb_spec (m - lo) (hi - m)); cbn [Py.bind];
    repeat split; intros; (assumption || lia).
Qed.

(** Between 128 and 192 MB: 150 is nearer to 128, 170 nearer to 192, and 160
    is the midpoint. *)
Lemma nearest_tier_price_witness :
  get_price_by_memory 150 = Py.Ok 0.000000208%Q /\
  get_price_by_memory 170 = Py.Ok 0.000000313%Q /\
  get_price_by_memory 160 = Py.Ok 0.000000208%Q.
Proof.
  pose (t2 := tl (tl MEMORY_TO_PRICE)).
  assert (E : MEMORY_TO_PRICE =
              [] ++ (128, 0.000000208%Q) :: (192, 0.000000313%Q) :: t2)
    by reflexivity.
  assert (B : forall m, 128 < m < 192 ->
              (m - 128 < 192 - m -> get_price_by_memory m = Py.Ok _) /\
              (192 - m < m - 128 -> get_price_by_memory m = Py.Ok _) /\
              (m - 128 = 192 - m -> get_price_by_memory m = Py.Ok _))
    by (intros m; exact (nearest_tier_price [] t2 128 192 _ _ m E)).
  split; [| split].
  - apply (proj1 (B 150 ltac:(lia))). lia.
  - apply (proj1 (proj2 (B 170 ltac:(lia)))). lia.
  - apply (proj2 (proj2 (B 160 ltac:(lia)))). lia.
Defined.

Lemma intervals_bounds (avg_duration : Q) :
  let k := inject_Z (Py.ceil (avg_duration / PRICE_INTERVALS_MS)) in
  ((k - 1) * 100 < avg_duration /\ avg_duration <= k * 100)%Q.
Proof.
  intros k. subst k. unfold Py.ceil.
  set (x := (avg_duration / PRICE_INTERVALS_MS)%Q).
  assert (E : (avg_duration == x * 100)%Q).
  { unfold x, PRICE_INTERVALS_MS. field. }
  pose proof (Qceiling_lt x) as Hlt. pose proof (Qle_ceiling x) as Hle.
  unfold Z.sub in Hlt. rewrite inject_Z_plus, inject_Z_opp in Hlt.
  change (inject_Z 1) with 1%Q in Hlt.
  rewrite E. split; lra.
Qed.

(** The duration enters the cost through its number of intervals only. *)
Lemma ceil_interval (d : Q) (k : Z) :
  ((inject_Z k - 1) * 100 < d)%Q -> (d <= inject_Z k * 100)%Q ->
  Py.ceil (d / PRICE_INTERVALS_MS) = k.
Proof.
  intros Hlo Hhi. unfold Py.ceil.
  set (x := (d / PRICE_INTERVALS_MS)%Q).
  assert (E : (d == x * 100)%Q).
  { unfold x, PRICE_INTERVALS_MS. field. }
  rewrite E in Hlo, Hhi.
  assert (H1 : (x <= inject_Z k)%Q) by lra.
  assert (H2 : (inject_Z k - 1 < x)%Q) by lra.
  apply Qceiling_resp_le in H1. rewrite Qceiling_Z in H1.
  pose proof (Qle_ceiling x) as H3.
  assert (H4 : (inject_Z (k - 1) < inject_Z (Qceiling x))%Q).
  { unfold Z.sub. rewrite inject_Z_plus, inject_Z_opp.
    change (inject_Z 1) with 1%Q. lra. }
  rewrite <- Zlt_Qlt in H4. lia.
Qed.

(** C7: the number of billing intervals the estimator charges is the ceiling
    of the average duration divided by 100 ms, the one integer k with
    (k - 1) * 100 < duration <= k * 100: the cost is k * invocations * price
    + invocations * 0.0000002 for that k; 1 ms and 100 ms are charged one
    interval, 101 ms and 150 ms two; and for a positive invocation count the
    cost of two intervals is above that of one and below that of three. *)
Theorem billing_intervals (avg_duration sum_invocations : Q)
                          (memory_size : Z) :
  let cost k price :=
    (inject_Z k * sum_invocations * price +
     sum_invocations * PRICE_PER_INVOCATION)%Q in
  exists (k : Z) (price : Q),
    get_price_by_memory memory_size = Py.Ok price /\
    ((inject_Z k - 1) * 100 < avg_duration)%Q /\
    (avg_duration <= inject_Z k * 100)%Q /\
    (forall k' : Z,
        ((inject_Z k' - 1) * 100 < avg_duration)%Q ->
        (avg_duration <= inject_Z k' * 100)%Q -> k' = k) /\
    calculate_cost avg_duration sum_invocations memory_size =
      Py.Ok (cost k price) /\
    calculate_cost 1 sum_invocations memory_size = Py.Ok (cost 1 price) /\
    calculate_cost 100 sum_invocations memory_size = Py.Ok (cost 1 price) /\
    calculate_cost 101 sum_invocations memory_size = Py.Ok (cost 2 price) /\
    calculate_cost 150 sum_invocations memory_size = Py.Ok (cost 2 price) /\
    ((0 < sum_invocations)%Q ->
     (cost 1%Z price < cost 2%Z price)%Q /\
     (cost 2%Z price < cost 3%Z price)%Q).
Proof.
  intros cost.
  destruct (get_price_by_memory_Ok memory_size)
    as (t & price & _ & Hp & Hin & _).
  pose proof (prices_positive t price Hin) as Hpos.
  assert (Hc : forall d,
             calculate_cost d sum_invocations memory_size =
               Py.Ok (cost (Py.ceil (d / PRICE_INTERVALS_MS)) price)).
  { intros d. unfold calculate_cost. rewrite Hp. reflexivity. }
  destruct (intervals_bounds avg_duration) as [Hlo Hhi]. cbv zeta in Hlo, Hhi.
  exists (Py.ceil (avg_duration / PRICE_INTERVALS_MS)), price.
  split; [exact Hp |]. split; [exact Hlo |]. split; [exact Hhi |].
  split.
  { intros k' H1 H2. symmetry. now apply ceil_interval. }
  split; [apply Hc |].
  do 4 (split; [apply Hc |]).
  intros Hn. unfold cost, PRICE_PER_INVOCATION.
  assert (Hnp : (0 < sum_invocations * price)%Q).
  { setoid_replace 0%Q with (0 * price)%Q by ring.
    apply Qmult_lt_compat_r; assumption. }
  change (inject_Z 1) with 1%Q. change (inject_Z 2) with 2%Q.
  change (inject_Z 3) with 3%Q.
  set (np := (sum_invocations * price)%Q) in *.
  assert (E : forall a, (a * sum_invocations * price == a * np)%Q)
    by (intros a; unfold np; ring).
  rewrite !E. split; lra.
Qed.

(** 150 ms, 1000 invocations, 512 MB. *)
Lemma billing_intervals_witness :
  exists price,
    get_price_by_memory 512 = Py.Ok price /\
    calculate_cost 150 1000 512 =
      Py.Ok (inject_Z 2 * 1000 * price + 1000 * PRICE_PER_INVOCATION)%Q /\
    (inject_Z 1 * 1000 * price + 1000 * PRICE_PER_INVOCATION <
     inject_Z 2 * 1000 * price + 1000 * PRICE_PER_INVOCATION)%Q /\
    (inject_Z 2 * 1000 * price + 1000 * PRICE_PER_INVOCATION <
     inject_Z 3 * 1000 * price + 1000 * PRICE_PER_INVOCATION)%Q.
Proof.
  destruct (billing_intervals 150 1000 512)
    as (k & price & Hp & _ & _ & _ & _ & _ & _ & _ & H150 & Hlt).
  exists price. split; [exact Hp |]. split; [exact H150 |].
  apply Hlt. reflexivity.
Defined.

(** What one pass of the loop body does. *)
Lemma loop_body_Ok (rows : list row) (total : Q) (f : function_data) :
  calculate_cost (avg_duration f) (sum_invocations f) (MemorySize f) =
    Py.Ok (period_cost f) /\
  loop_body (rows, total) f =
    Py.Ok (rows ++ [row_of f], (total + period_cost f * 30)%Q).
Proof.
  destruct (calculate_cost_Ok (avg_duration f) (sum_invocations f)
                              (MemorySize f)) as (k & p & _ & _ & Hc).
  unfold loop_body, row_of, period_cost. rewrite Hc. cbn [Py.bind]. auto.
Qed.

Lemma period_cost_eq (f : function_data) :
  exists k price,
    In (k, price) MEMORY_TO_PRICE /\
    get_price_by_memory (MemorySize f) = Py.Ok price /\
    period_cost f =
      (inject_Z (Py.ceil (avg_duration f / PRICE_INTERVALS_MS)) *
       sum_invocations f * price +
       sum_invocations f * PRICE_PER_INVOCATION)%Q.
Proof.
  destruct (calculate_cost_Ok (avg_duration f) (sum_invocations f)
                              (MemorySize f)) as (k & p & Hin & Hp & Hc).
  exists k, p. unfold period_cost. rewrite Hc. auto.
Qed.

(** C1: the estimator returns ceil(d / 100) * priceForMemory(m) * n +
    n * 0.0000002 as the daily cost, and the monthly estimate, shown in the
    row and added to the total, is that cost times 30; for d = 250, n = 1000,
    m = 512 the daily cost is 3 * 0.000000834 * 1000 + 1000 * 0.0000002 =
    0.002702 and the monthly estimate 0.08106, shown with three decimals as
    0.003 and 0.081. *)
Theorem cost_formula :
  (forall (d n : Q) (m : Z), exists price cost,
      get_price_by_memory m = Py.Ok price /\
      calculate_cost d n m = Py.Ok cost /\
      (cost == inject_Z (Py.ceil (d / 100)) * price * n + n * 0.0000002)%Q) /\
  (forall (f : function_data) (rows : list row) (total : Q), exists cost,
      calculate_cost (avg_duration f) (sum_invocations f) (MemorySize f) =
        Py.Ok cost /\
      loop_body (rows, total) f =
        Py.Ok (rows ++ [make_row f cost], (total + cost * 30)%Q) /\
      x6 (make_row f cost) =
        if Qeq_bool (avg_duration f) 0 then RESULT_NA
        else format3 (cost * 30)%Q) /\
  (exists cost,
      calculate_cost 250 1000 512 = Py.Ok cost /\
      (cost == inject_Z 3 * 0.000000834 * 1000 + 1000 * 0.0000002)%Q /\
      (cost == 0.002702)%Q /\
      (cost * 30 == 0.08106)%Q /\
      x5 (make_row busy cost) = Fixed3 3 /\
      x6 (make_row busy cost) = Fixed3 81).
Proof.
  split; [| split].
  - intros d n m.
    destruct (calculate_cost_Ok d n m) as (k & p & _ & Hp & Hc).
    do 2 eexists. split; [exact Hp |]. split; [exact Hc |].
    unfold Py.ceil.
    assert (E : Qceiling (d / PRICE_INTERVALS_MS) = Qceiling (d / 100)).
    { apply Qceiling_comp. unfold PRICE_INTERVALS_MS. field. }
    rewrite E. unfold PRICE_PER_INVOCATION. ring.
  - intros f rows total. exists (period_cost f).
    destruct (loop_body_Ok rows total f) as [Hc Hb].
    split; [exact Hc |]. split; [exact Hb | reflexivity].
  - eexists. split; [vm_compute; reflexivity |].
    repeat split; vm_compute; reflexivity.
Qed.

(** C2 as stated fails: a function with zero average duration and 1000
    invocations adds 0.006 to the monthly total, not 0. *)
Lemma zero_duration_total_counterexample :
  (avg_duration idle_but_invoked == 0)%Q /\
  exists rows total,
    loop_body ([], 0%Q) idle_but_invoked = Py.Ok (rows, total) /\
    (total - 0 == 0.006)%Q /\ ~ (total - 0 == 0)%Q.
Proof.
  split; [reflexivity |].
  eexists. eexists. split; [vm_compute; reflexivity |].
  split; [vm_compute; reflexivity | vm_compute; discriminate].
Qed.

(** C2, amended: a record whose average duration is zero adds to the running
    monthly total exactly 30 times its invocation count times 0.0000002,
    whatever its memory size; that is 0 when its invocation count is 0. *)
Theorem zero_duration_total (f : function_data) (rows : list row) (total : Q) :
  (avg_duration f == 0)%Q ->
  exists rows' total',
    loop_body (rows, total) f = Py.Ok (rows', total') /\
    (total' - total == 30 * (sum_invocations f * 0.0000002))%Q /\
    ((sum_invocations f == 0)%Q -> (total' - total == 0)%Q).
Proof.
  intros Hd. destruct (loop_body_Ok rows total f) as [_ Hb].
  destruct (period_cost_eq f) as (k & p & _ & _ & Hc).
  do 2 eexists. split; [exact Hb |].
  assert (E : Py.ceil (avg_duration f / PRICE_INTERVALS_MS) = 0).
  { unfold Py.ceil. rewrite (Qceiling_comp _ 0%Q); [reflexivity |].
    rewrite Hd. reflexivity. }
  rewrite E in Hc. rewrite Hc. unfold PRICE_PER_INVOCATION.
  split.
  - change (inject_Z 0) with 0%Q. ring.
  - intros Hn. rewrite Hn. change (inject_Z 0) with 0%Q. ring.
Qed.

(** A zero duration with 1000 invocations, and with none. *)
Lemma zero_duration_total_witness :
  (exists rows' total',
      loop_body ([], 0%Q) idle_but_invoked = Py.Ok (rows', total') /\
      (total' - 0 == 30 * (sum_invocations idle_but_invoked * 0.0000002))%Q /\
      ((sum_invocations idle_but_invoked == 0)%Q -> (total' - 0 == 0)%Q)) /\
  (exists rows' total',
      loop_body ([], 0%Q) idle = Py.Ok (rows', total') /\
      (total' - 0 == 30 * (sum_invocations idle * 0.0000002))%Q /\
      ((sum_invocations idle == 0)%Q -> (total' - 0 == 0)%Q)).
Proof.
  split.
  - apply (zero_duration_total idle_but_invoked [] 0%Q). reflexivity.
  - apply (zero_duration_total idle [] 0%Q). reflexivity.
Defined.

(** C4: the row of a record with zero average duration shows the marker in
    the duration, invocation and cost cells (daily and monthly alike), also
    when its invocation count is not zero; the row of a record with a
    non-zero duration shows the marker in none of them. *)
Theorem not_available_all_or_nothing (f : function_data) (rows : list row)
                                     (total : Q) :
  exists r total',
    loop_body (rows, total) f = Py.Ok (rows ++ [r], total') /\
    ((avg_duration f == 0)%Q ->
       x3 r = RESULT_NA /\ x4 r = RESULT_NA /\
       x5 r = RESULT_NA /\ x6 r = RESULT_NA) /\
    (~ (avg_duration f == 0)%Q ->
       x3 r <> RESULT_NA /\ x4 r <> RESULT_NA /\
       x5 r <> RESULT_NA /\ x6 r <> RESULT_NA).
Proof.
  exists (row_of f). eexists.
  split; [exact (proj2 (loop_body_Ok rows total f)) |].
  unfold row_of, make_row, format3. cbn [x3 x4 x5 x6].
  destruct (Qeq_bool (avg_duration f) 0) eqn:E.
  - apply Qeq_bool_iff in E. split; [auto | intros H; contradiction].
  - split.
    + intros H. apply Qeq_bool_iff in H. congruence.
    + intros _. repeat split; discriminate.
Qed.

(** The row of a function invoked 1000 times with a zero average duration. *)
Lemma not_available_all_or_nothing_witness :
  exists total',
    ~ (sum_invocations idle_but_invoked == 0)%Q /\
    loop_body ([], 0%Q) idle_but_invoked =
      Py.Ok ([{| x0 := "fn"; x1 := "us-east-1"; x2 := 512;
                 x3 := RESULT_NA; x4 := RESULT_NA;
                 x5 := RESULT_NA; x6 := RESULT_NA |}], total').
Proof.
  destruct (not_available_all_or_nothing idle_but_invoked [] 0%Q)
    as (r & total' & Hb & Hna & _).
  exists total'. split; [vm_compute; discriminate |].
  rewrite Hb. destruct r as [r0 r1 r2 r3 r4 r5 r6].
  assert (E : r0 = "fn"%string /\ r1 = "us-east-1"%string /\ r2 = 512).
  { pose proof (proj2 (loop_body_Ok [] 0%Q idle_but_invoked)) as Hb'.
    rewrite Hb in Hb'. inversion Hb'. auto. }
  destruct E as (-> & -> & ->).
  destruct (Hna ltac:(reflexivity)) as (E3 & E4 & E5 & E6).
  cbn [x3 x4 x5 x6] in *. subst. reflexivity.
Defined.

(** C10: for a non-negative invocation count the cost does not decrease
    when the average duration grows, and for a non-negative average duration
    it does not decrease when the invocation count grows, the memory size
    being fixed. *)
Theorem cost_monotone (memory_size : Z) (d1 d2 n1 n2 : Q) :
  ((0 <= n1)%Q -> (d1 <= d2)%Q ->
   exists c1 c2,
     calculate_cost d1 n1 memory_size = Py.Ok c1 /\
     calculate_cost d2 n1 memory_size = Py.Ok c2 /\ (c1 <= c2)%Q) /\
  ((0 <= d1)%Q -> (n1 <= n2)%Q ->
   exists c1 c2,
     calculate_cost d1 n1 memory_size = Py.Ok c1 /\
     calculate_cost d1 n2 memory_size = Py.Ok c2 /\ (c1 <= c2)%Q).
Proof.
  destruct (get_price_by_memory_Ok memory_size)
    as (k & p & _ & Hp & Hin & _).
  pose proof (prices_positive k p Hin) as Hpos.
  assert (Hc : forall d n,
             calculate_cost d n memory_size =
               Py.Ok (inject_Z (Py.ceil (d / PRICE_INTERVALS_MS)) * n * p +
                      n * PRICE_PER_INVOCATION)%Q).
  { intros d n. unfold calculate_cost. rewrite Hp. reflexivity. }
  assert (Hmono : forall a b, (a <= b)%Q ->
             (inject_Z (Py.ceil (a / PRICE_INTERVALS_MS)) <=
              inject_Z (Py.ceil (b / PRICE_INTERVALS_MS)))%Q).
  { intros a b Hab. rewrite <- Zle_Qle. unfold Py.ceil.
    apply Qceiling_resp_le. unfold PRICE_INTERVALS_MS.
    apply Qmult_le_compat_r; [assumption | discriminate]. }
  split.
  - intros Hn Hd. do 2 eexists. split; [apply Hc | split; [apply Hc |]].
    specialize (Hmono d1 d2 Hd).
    apply Qplus_le_l. apply Qmult_le_compat_r; [| lra].
    apply Qmult_le_compat_r; assumption.
  - intros Hd Hn. do 2 eexists. split; [apply Hc | split; [apply Hc |]].
    specialize (Hmono 0%Q d1 Hd).
    change (inject_Z (Py.ceil (0 / PRICE_INTERVALS_MS))) with 0%Q in Hmono.
    set (K := inject_Z (Py.ceil (d1 / PRICE_INTERVALS_MS))) in *.
    unfold PRICE_PER_INVOCATION.
    assert (HK : (0 <= K * p)%Q) by (apply Qmult_le_0_compat; lra).
    setoid_replace (K * n1 * p + n1 * 0.0000002)%Q
      with ((K * p + 0.0000002) * n1)%Q by ring.
    setoid_replace (K * n2 * p + n2 * 0.0000002)%Q
      with ((K * p + 0.0000002) * n2)%Q by ring.
    rewrite (Qmult_comm _ n1), (Qmult_comm _ n2).
    apply Qmult_le_compat_r; [assumption | lra].
Qed.

(** From 100 ms to 250 ms, and from 1000 to 2000 invocations, at 512 MB. *)
Lemma cost_monotone_witness :
  (exists c1 c2,
     calculate_cost 100 1000 512 = Py.Ok c1 /\
     calculate_cost 250 1000 512 = Py.Ok c2 /\ (c1 <= c2)%Q) /\
  (exists c1 c2,
     calculate_cost 100 1000 512 = Py.Ok c1 /\
     calculate_cost 100 2000 512 = Py.Ok c2 /\ (c1 <= c2)%Q).
Proof.
  split.
  - apply (proj1 (cost_monotone 512 100 250 1000 2000));
      vm_compute; discriminate.
  - apply (proj2 (cost_monotone 512 100 250 1000 2000));
      vm_compute; discriminate.
Defined.

(** * The sort *)

Section SortFacts.
Context {A : Type} (key : A -> Q).

Lemma insert_desc_perm (x : A) (l : list A) :
  Permutation (x :: l) (Py.insert_desc key x l).
Proof.
  induction l as [| y l IH]; simpl; [reflexivity |].
  destruct (Qle_bool (key y) (key x)); [reflexivity |].
  rewrite perm_swap. now apply perm_skip.
Qed.

Lemma sort_reverse_perm (l : list A) :
  Permutation l (Py.sort_reverse key l).
Proof.
  induction l as [| x l IH]; simpl; [reflexivity |].
  rewrite <- insert_desc_perm. now apply perm_skip.
Qed.

Lemma insert_desc_descending (x : A) (l : list A) :
  descending key l -> descending key (Py.insert_desc key x l).
Proof.
  unfold descending.
  induction 1 as [| y l Hs IH Hall]; simpl.
  - repeat constructor.
  - destruct (Qle_bool (key y) (key x)) eqn:E.
    + apply Qle_bool_iff in E. constructor; [now constructor |].
      constructor; [assumption |].
      eapply Forall_impl; [| exact Hall].
      intros b Hb. simpl in Hb. now apply Qle_trans with (key y).
    + constructor; [assumption |].
      apply (Permutation_Forall (insert_desc_perm x l)).
      constructor; [| assumption].
      apply Qnot_lt_le. intros Hlt.
      apply Qlt_le_weak, Qle_bool_iff in Hlt. congruence.
Qed.

Lemma sort_reverse_descending (l : list A) :
  descending key (Py.sort_reverse key l).
Proof.
  induction l as [| x l IH]; simpl.
  - constructor.
  - now apply insert_desc_descending.
Qed.

(** Elements of equal key are never reordered. *)
Lemma insert_desc_with_key (q : Q) (x : A) (l : list A) :
  with_key key q (Py.insert_desc key x l) = with_key key q (x :: l).
Proof.
  unfold with_key.
  induction l as [| y l IH]; simpl; [reflexivity |].
  destruct (Qle_bool (key y) (key x)) eqn:E; [reflexivity |].
  simpl in *. rewrite IH.
  destruct (Qeq_bool (key x) q) eqn:Ex; [| reflexivity].
  destruct (Qeq_bool (key y) q) eqn:Ey; [| reflexivity].
  apply Qeq_bool_iff in Ex, Ey.
  assert (Hle : (key y <= key x)%Q) by (rewrite Ex, Ey; apply Qle_refl).
  apply Qle_bool_iff in Hle. congruence.
Qed.

Lemma sort_reverse_with_key (q : Q) (l : list A) :
  with_key key q (Py.sort_reverse key l) = with_key key q l.
Proof.
  induction l as [| x l IH]; simpl; [reflexivity |].
  rewrite insert_desc_with_key. unfold with_key in *. simpl.
  now rewrite IH.
Qed.

End SortFacts.

(** * The loop *)

Lemma loop_Ok (functions : list function_data) :
  forall rows total,
    loop (rows, total) functions =
      Py.Ok (rows ++ map row_of functions,
             fold_left (fun t f => (t + period_cost f * 30)%Q) functions total).
Proof.
  unfold loop.
  induction functions as [| f functions IH]; intros rows total;
    cbn [Py.for_each map fold_left].
  - now rewrite app_nil_r.
  - rewrite (proj2 (loop_body_Ok rows total f)). rewrite IH.
    now rewrite <- app_assoc.
Qed.

Lemma print_lambda_cost_Ok (functions : list function_data) :
  print_lambda_cost functions =
    Py.Ok (Py.sort_reverse sort_key (map row_of functions),
           fold_left (fun t f => (t + period_cost f * 30)%Q) functions 0%Q).
Proof.
  unfold print_lambda_cost. rewrite loop_Ok. reflexivity.
Qed.

Lemma fold_left_total {A : Type} (g : A -> Q) (l : list A) :
  forall total,
    (fold_left (fun t x => t + g x) l total == total + Qsum (map g l))%Q.
Proof.
  induction l as [| x l IH]; intros total; cbn [fold_left map Qsum fold_right].
  - ring.
  - rewrite IH. unfold Qsum. ring.
Qed.

Lemma Qsum_perm (l l' : list Q) : Permutation l l' -> (Qsum l == Qsum l')%Q.
Proof.
  induction 1 as [| x l l' _ IH | x y l | l l' l'' _ IH1 _ IH2]; simpl.
  - reflexivity.
  - now rewrite IH.
  - ring.
  - now rewrite IH1.
Qed.

(** The key of a row: 0 under the marker, else the displayed daily cost. *)
Lemma sort_key_make_row (f : function_data) (cost : Q) :
  sort_key (make_row f cost) =
    if Qeq_bool (avg_duration f) 0 then 0%Q
    else (inject_Z (Py.round_half_even (cost * 1000)) / 1000)%Q.
Proof.
  unfold sort_key, make_row, format3, float. cbn [x5].
  destruct (Qeq_bool (avg_duration f) 0); reflexivity.
Qed.

(** * Further properties of the pricing table and of the lookup *)

Section MinSplit.
Context {A : Type} (key : A -> Z).

Lemma min_from_split (l : list A) :
  forall best,
    (Py.min_from key best l = best /\
     forall x, In x l -> key best <= key x) \/
    (exists l1 l2,
        l = l1 ++ Py.min_from key best l :: l2 /\
        key (Py.min_from key best l) < key best /\
        (forall x, In x l1 -> key (Py.min_from key best l) < key x) /\
        (forall x, In x l2 -> key (Py.min_from key best l) <= key x)).
Proof.
  induction l as [| y l IH]; intros best; cbn [Py.min_from].
  - left. split; [reflexivity | intros x []].
  - set (b := if key y <? key best then y else best).
    assert (Hb : key b <= key best /\ key b <= key y).
    { unfold b. destruct (Z.ltb_spec (key y) (key best)); lia. }
    destruct (IH b) as [[E Hall] | (l1 & l2 & E & Hlt & H1 & H2)].
    + rewrite E. unfold b in *.
      destruct (Z.ltb_spec (key y) (key best)) as [Hy | Hy].
      * right. exists [], l. repeat split; auto. intros x [].
      * left. split; [reflexivity |]. intros x [<- | Hx]; auto.
    + right. exists (y :: l1), l2. split; [| split; [| split]].
      * cbn [app]. now rewrite <- E.
      * lia.
      * intros x [<- | Hx]; [lia | auto].
      * assumption.
Qed.

(** What [min] returns stands at the first place of smallest key. *)
Lemma min_split (l : list A) (k : A) :
  Py.min key l = Py.Ok k ->
  exists l1 l2,
    l = l1 ++ k :: l2 /\
    (forall x, In x l1 -> key k < key x) /\
    (forall x, In x l2 -> key k <= key x).
Proof.
  destruct l as [| y l]; cbn [Py.min]; intros H; [discriminate |].
  injection H as <-.
  destruct (min_from_split l y) as [[E Hall] | (l1 & l2 & E & Hlt & H1 & H2)].
  - rewrite E. exists [], l. repeat split; auto. intros x [].
  - exists (y :: l1), l2. split; [| split].
    + cbn [app]. now rewrite <- E.
    + intros x [<- | Hx]; auto.
    + assumption.
Qed.

End MinSplit.

(** The selected tier is at the smallest distance, and it is the smallest
    tier at that distance. *)
Lemma function_memory_nearest (memory_size k : Z) :
  function_memory memory_size = Py.Ok k ->
  forall k', In k' (Py.keys MEMORY_TO_PRICE) ->
    Z.abs (k - memory_size) <= Z.abs (k' - memory_size) /\
    (Z.abs (k' - memory_size) = Z.abs (k - memory_size) -> k <= k').
Proof.
  unfold function_memory. intros H k' Hin.
  destruct (min_split _ _ _ H) as (l1 & l2 & E & H1 & H2).
  pose proof keys_sorted as Hs. rewrite E in Hs, Hin.
  destruct (sorted_lt_app _ _ _ Hs) as [_ Hafter].
  apply in_app_or in Hin. destruct Hin as [Hin | [<- | Hin]].
  - specialize (H1 k' Hin). cbv beta in H1. lia.
  - lia.
  - specialize (H2 k' Hin). specialize (Hafter k' Hin). cbv beta in H2. lia.
Qed.

(** Prices grow with the memory size of the tier. *)
Lemma prices_sorted (k1 k2 : Z) (p1 p2 : Q) :
  In (k1, p1) MEMORY_TO_PRICE -> In (k2, p2) MEMORY_TO_PRICE ->
  k1 <= k2 -> (p1 <= p2)%Q.
Proof.
  assert (H : forallb (fun a => forallb (fun b =>
                implb (fst a <=? fst b) (Qle_bool (snd a) (snd b)))
                MEMORY_TO_PRICE) MEMORY_TO_PRICE = true)
    by (vm_compute; reflexivity).
  rewrite forallb_forall in H. intros H1 H2 Hle.
  specialize (H _ H1). rewrite forallb_forall in H. specialize (H _ H2).
  cbn [fst snd] in H. apply Z.leb_le in Hle. rewrite Hle in H.
  now apply Qle_bool_iff.
Qed.

(** X1: every memory size is priced at a tier at the smallest distance from
    it of the whole table, and when two tiers are at that distance, at the
    smaller of the two. *)
Theorem lookup_nearest_of_table (memory_size : Z) :
  exists k p,
    get_price_by_memory memory_size = Py.Ok p /\
    In (k, p) MEMORY_TO_PRICE /\
    forall k' p', In (k', p') MEMORY_TO_PRICE ->
      Z.abs (k - memory_size) <= Z.abs (k' - memory_size) /\
      (Z.abs (k' - memory_size) = Z.abs (k - memory_size) -> k <= k').
Proof.
  destruct (get_price_by_memory_Ok memory_size) as (k & p & Hk & Hp & Hin & _).
  exists k, p. split; [exact Hp |]. split; [exact Hin |].
  intros k' p' Hin'. apply function_memory_nearest; [exact Hk |].
  unfold Py.keys. change k' with (fst (k', p')). now apply in_map.
Qed.

(** X2: a memory size at or below the smallest tier, zero and negative sizes
    included, is priced as 128 MB, and a memory size at or above the largest
    tier is priced as 3008 MB. *)
Theorem lookup_clamps (memory_size : Z) :
  (memory_size <= 128 ->
   get_price_by_memory memory_size = Py.Ok 0.000000208%Q) /\
  (3008 <= memory_size ->
   get_price_by_memory memory_size = Py.Ok 0.000004897%Q).
Proof.
  destruct (get_price_by_memory_Ok memory_size) as (k & p & Hk & Hp & Hin & _).
  assert (Hrange : forall k', In k' (Py.keys MEMORY_TO_PRICE) ->
                              128 <= k' <= 3008).
  { assert (H : forallb (fun k' => (128 <=? k') && (k' <=? 3008))%bool
                        (Py.keys MEMORY_TO_PRICE) = true)
      by (vm_compute; reflexivity).
    rewrite forallb_forall in H. intros k' Hk'. specialize (H k' Hk'). lia. }
  assert (Hlo : In 128 (Py.keys MEMORY_TO_PRICE)) by (vm_compute; tauto).
  assert (Hhi : In 3008 (Py.keys MEMORY_TO_PRICE)) by (vm_compute; tauto).
  assert (Hkin : In k (Py.keys MEMORY_TO_PRICE)).
  { unfold Py.keys. change k with (fst (k, p)). now apply in_map. }
  pose proof (Hrange k Hkin) as Hkr.
  split; intros Hm.
  - destruct (function_memory_nearest _ _ Hk 128 Hlo) as [Hd _].
    assert (k = 128) by lia. subst k.
    rewrite Hp. f_equal.
    assert (E : get_price_by_memory 128 = Py.Ok 0.000000208%Q)
      by (apply function_memory_tier; vm_compute; tauto).
    pose proof (proj2 (function_memory_tier 128 p Hin)) as E'.
    congruence.
  - destruct (function_memory_nearest _ _ Hk 3008 Hhi) as [Hd _].
    assert (k = 3008) by lia. subst k.
    rewrite Hp. f_equal.
    assert (E : get_price_by_memory 3008 = Py.Ok 0.000004897%Q)
      by (apply function_memory_tier; vm_compute; tauto).
    pose proof (proj2 (function_memory_tier 3008 p Hin)) as E'.
    congruence.
Qed.

(** Sizes of 0 MB and of 10240 MB. *)
Lemma lookup_clamps_witness :
  get_price_by_memory 0 = Py.Ok 0.000000208%Q /\
  get_price_by_memory 10240 = Py.Ok 0.000004897%Q.
Proof.
  split.
  - apply (proj1 (lookup_clamps 0)). lia.
  - apply (proj2 (lookup_clamps 10240)). lia.
Defined.

(** The price follows the memory size. *)
Lemma price_monotone_pair (m1 m2 : Z) :
  m1 <= m2 ->
  exists p1 p2,
    get_price_by_memory m1 = Py.Ok p1 /\
    get_price_by_memory m2 = Py.Ok p2 /\ (p1 <= p2)%Q.
Proof.
  intros Hm.
  destruct (get_price_by_memory_Ok m1) as (k1 & p1 & Hk1 & Hp1 & Hin1 & _).
  destruct (get_price_by_memory_Ok m2) as (k2 & p2 & Hk2 & Hp2 & Hin2 & _).
  exists p1, p2. split; [exact Hp1 |]. split; [exact Hp2 |].
  apply (prices_sorted k1 k2); [assumption | assumption |].
  assert (Hi1 : In k1 (Py.keys MEMORY_TO_PRICE)).
  { unfold Py.keys. change k1 with (fst (k1, p1)). now apply in_map. }
  assert (Hi2 : In k2 (Py.keys MEMORY_TO_PRICE)).
  { unfold Py.keys. change k2 with (fst (k2, p2)). now apply in_map. }
  destruct (function_memory_nearest _ _ Hk1 k2 Hi2) as [Ha Ha'].
  destruct (function_memory_nearest _ _ Hk2 k1 Hi1) as [Hb Hb'].
  lia.
Qed.

(** X3: the price does not decrease when the memory size grows. *)
Theorem price_monotone (m1 m2 : Z) :
  m1 <= m2 ->
  exists p1 p2,
    get_price_by_memory m1 = Py.Ok p1 /\
    get_price_by_memory m2 = Py.Ok p2 /\ (p1 <= p2)%Q.
Proof.
  exact (price_monotone_pair m1 m2).
Qed.

(** From 300 MB to 1000 MB. *)
Lemma price_monotone_witness :
  exists p1 p2,
    get_price_by_memory 300 = Py.Ok p1 /\
    get_price_by_memory 1000 = Py.Ok p2 /\ (p1 <= p2)%Q.
Proof.
  apply (price_monotone 300 1000). lia.
Defined.

(** * Further properties of the estimator *)

Lemma tier_bounds (k : Z) (p : Q) :
  In (k, p) MEMORY_TO_PRICE ->
  128 <= k <= 3008 /\ (0.000000208 <= p)%Q /\ (p <= 0.000004897)%Q.
Proof.
  intros Hin.
  assert (Hlo : In (128, 0.000000208%Q) MEMORY_TO_PRICE)
    by (vm_compute; tauto).
  assert (Hhi : In (3008, 0.000004897%Q) MEMORY_TO_PRICE)
    by (vm_compute; tauto).
  assert (H : forallb (fun a => (128 <=? fst a) && (fst a <=? 3008))%bool
                      MEMORY_TO_PRICE = true) by (vm_compute; reflexivity).
  rewrite forallb_forall in H. specialize (H _ Hin). cbn [fst] in H.
  assert (Hk : 128 <= k <= 3008) by lia.
  split; [exact Hk |]. split.
  - apply (prices_sorted 128 k); auto. lia.
  - apply (prices_sorted k 3008); auto. lia.
Qed.

Lemma intervals_nonneg (d : Q) :
  (0 <= d)%Q -> (0 <= inject_Z (Py.ceil (d / PRICE_INTERVALS_MS)))%Q.
Proof.
  intros Hd. unfold Py.ceil.
  assert (H : (0 <= d / PRICE_INTERVALS_MS)%Q).
  { apply Qle_shift_div_l; [reflexivity |]. unfold PRICE_INTERVALS_MS. lra. }
  apply Qceiling_resp_le in H. change (Qceiling 0) with 0 in H.
  rewrite Zle_Qle in H. exact H.
Qed.

(** X4: two average durations with the same number of started 100 ms
    intervals cost the same, whatever the invocation count and the memory
    size. *)
Theorem cost_by_interval (d1 d2 n : Q) (memory_size k : Z) :
  ((inject_Z k - 1) * 100 < d1)%Q -> (d1 <= inject_Z k * 100)%Q ->
  ((inject_Z k - 1) * 100 < d2)%Q -> (d2 <= inject_Z k * 100)%Q ->
  calculate_cost d1 n memory_size = calculate_cost d2 n memory_size.
Proof.
  intros H1 H1' H2 H2'.
  destruct (calculate_cost_Ok d1 n memory_size) as (k1 & p1 & _ & Hp1 & Hc1).
  destruct (calculate_cost_Ok d2 n memory_size) as (k2 & p2 & _ & Hp2 & Hc2).
  rewrite Hc1, Hc2.
  rewrite (ceil_interval d1 k H1 H1'), (ceil_interval d2 k H2 H2').
  congruence.
Qed.

(** 101 ms and 200 ms are both two intervals. *)
Lemma cost_by_interval_witness :
  calculate_cost 101 1000 512 = calculate_cost 200 1000 512.
Proof.
  apply (cost_by_interval 101 200 1000 512 2); vm_compute; congruence.
Defined.

(** X5: the cost is additive in the invocation count, and no invocation
    costs nothing, whatever the duration and the memory size. *)
Theorem cost_additive (d n1 n2 : Q) (memory_size : Z) :
  exists c1 c2 c c0,
    calculate_cost d n1 memory_size = Py.Ok c1 /\
    calculate_cost d n2 memory_size = Py.Ok c2 /\
    calculate_cost d (n1 + n2) memory_size = Py.Ok c /\
    calculate_cost d 0 memory_size = Py.Ok c0 /\
    (c == c1 + c2)%Q /\ (c0 == 0)%Q.
Proof.
  destruct (get_price_by_memory_Ok memory_size)
    as (k & p & _ & Hp & _ & _).
  assert (Hc : forall n,
             calculate_cost d n memory_size =
               Py.Ok (inject_Z (Py.ceil (d / PRICE_INTERVALS_MS)) * n * p +
                      n * PRICE_PER_INVOCATION)%Q).
  { intros n. unfold calculate_cost. rewrite Hp. reflexivity. }
  do 4 eexists. repeat (split; [apply Hc |]). split; ring.
Qed.

(** X6: for a non-negative duration and a non-negative invocation count the
    cost lies between the invocation count times (intervals * 0.000000208 +
    0.0000002) and the invocation count times (intervals * 0.000004897 +
    0.0000002); in particular it is not negative. *)
Theorem cost_bounds (d n : Q) (memory_size : Z) :
  (0 <= d)%Q -> (0 <= n)%Q ->
  exists c,
    calculate_cost d n memory_size = Py.Ok c /\
    let K := inject_Z (Py.ceil (d / PRICE_INTERVALS_MS)) in
    (n * (K * 0.000000208 + 0.0000002) <= c)%Q /\
    (c <= n * (K * 0.000004897 + 0.0000002))%Q /\
    (0 <= c)%Q.
Proof.
  intros Hd Hn.
  destruct (calculate_cost_Ok d n memory_size) as (k & p & Hin & _ & Hc).
  destruct (tier_bounds k p Hin) as (_ & Hlo & Hhi).
  eexists. split; [exact Hc |]. cbv zeta.
  set (K := inject_Z (Py.ceil (d / PRICE_INTERVALS_MS))).
  assert (HK : (0 <= K)%Q) by (apply intervals_nonneg; assumption).
  unfold PRICE_PER_INVOCATION.
  assert (HnK : (0 <= K * n)%Q) by (apply Qmult_le_0_compat; assumption).
  assert (H1 : (K * n * 0.000000208 <= K * n * p)%Q).
  { rewrite (Qmult_comm _ 0.000000208), (Qmult_comm _ p).
    apply Qmult_le_compat_r; assumption. }
  assert (H2 : (K * n * p <= K * n * 0.000004897)%Q).
  { rewrite (Qmult_comm _ 0.000004897), (Qmult_comm _ p).
    apply Qmult_le_compat_r; assumption. }
  split; [| split]; lra.
Qed.

(** 250 ms, 1000 invocations, 512 MB. *)
Lemma cost_bounds_witness :
  exists c,
    calculate_cost 250 1000 512 = Py.Ok c /\
    (1000 * (inject_Z 3 * 0.000000208 + 0.0000002) <= c)%Q /\
    (c <= 1000 * (inject_Z 3 * 0.000004897 + 0.0000002))%Q /\
    (0 <= c)%Q.
Proof.
  apply (cost_bounds 250 1000 512); vm_compute; discriminate.
Defined.

(** X7: for a non-negative duration and a non-negative invocation count the
    cost does not decrease when the memory size grows. *)
Theorem cost_monotone_in_memory (d n : Q) (m1 m2 : Z) :
  (0 <= d)%Q -> (0 <= n)%Q -> m1 <= m2 ->
  exists c1 c2,
    calculate_cost d n m1 = Py.Ok c1 /\
    calculate_cost d n m2 = Py.Ok c2 /\ (c1 <= c2)%Q.
Proof.
  intros Hd Hn Hm.
  destruct (price_monotone_pair m1 m2 Hm) as (p1 & p2 & Hp1 & Hp2 & Hle).
  unfold calculate_cost. rewrite Hp1, Hp2. cbn [Py.bind].
  do 2 eexists. split; [reflexivity |]. split; [reflexivity |].
  set (K := inject_Z (Py.ceil (d / PRICE_INTERVALS_MS))).
  assert (HK : (0 <= K)%Q) by (apply intervals_nonneg; assumption).
  assert (HnK : (0 <= K * n)%Q) by (apply Qmult_le_0_compat; assumption).
  apply Qplus_le_l.
  rewrite (Qmult_comm _ p1), (Qmult_comm _ p2).
  apply Qmult_le_compat_r; assumption.
Qed.

(** From 512 MB to 1024 MB. *)
Lemma cost_monotone_in_memory_witness :
  exists c1 c2,
    calculate_cost 250 1000 512 = Py.Ok c1 /\
    calculate_cost 250 1000 1024 = Py.Ok c2 /\ (c1 <= c2)%Q.
Proof.
  apply (cost_monotone_in_memory 250 1000 512 1024);
    [vm_compute; discriminate | vm_compute; discriminate | lia].
Defined.

(** * Further properties of the display and of the report order *)

Lemma round_half_even_bounds (x : Q) :
  (x - (1 # 2) <= inject_Z (Py.round_half_even x))%Q /\
  (inject_Z (Py.round_half_even x) <= x + (1 # 2))%Q.
Proof.
  unfold Py.round_half_even.
  pose proof (Qfloor_le x) as Hlo. pose proof (Qlt_floor x) as Hhi.
  rewrite inject_Z_plus in Hhi. change (inject_Z 1) with 1%Q in Hhi.
  set (f := Qfloor x) in *.
  destruct (Qcompare_spec (x - inject_Z f) (1 # 2)) as [E | Hlt | Hgt].
  - destruct (Z.even f).
    + split; lra.
    + rewrite inject_Z_plus. change (inject_Z 1) with 1%Q. split; lra.
  - split; lra.
  - rewrite inject_Z_plus. change (inject_Z 1) with 1%Q. split; lra.
Qed.

Lemma float_format3_bounds (c : Q) :
  (c - 0.0005 <= inject_Z (Py.round_half_even (c * 1000)) / 1000)%Q /\
  (inject_Z (Py.round_half_even (c * 1000)) / 1000 <= c + 0.0005)%Q.
Proof.
  destruct (round_half_even_bounds (c * 1000)) as [Hlo Hhi].
  set (r := inject_Z (Py.round_half_even (c * 1000))) in *.
  assert (E : (r / 1000 == r * (1 # 1000))%Q) by field.
  rewrite E. split; lra.
Qed.

(** X8: a displayed cost differs from the computed cost by at most half a
    thousandth. *)
Theorem display_error (c : Q) :
  exists t,
    format3 c = Fixed3 t /\
    (c - 0.0005 <= shown (Fixed3 t))%Q /\ (shown (Fixed3 t) <= c + 0.0005)%Q.
Proof.
  eexists. split; [reflexivity |]. cbn [shown]. unfold float.
  apply float_format3_bounds.
Qed.


Lemma descending_after {A : Type} (key : A -> Q) (l1 l2 : list A) (a : A) :
  descending key (l1 ++ a :: l2) ->
  forall b, In b l2 -> (key b <= key a)%Q.
Proof.
  unfold descending. induction l1 as [| y l1 IH]; cbn [app]; intros H.
  - inversion H as [| ? ? _ Hall]; subst. rewrite Forall_forall in Hall.
    exact Hall.
  - inversion H; subst. auto.
Qed.

(** The report of a list of functions. *)
Lemma report_rows (functions : list function_data) :
  exists total,
    print_lambda_cost functions =
      Py.Ok (Py.sort_reverse sort_key (map row_of functions), total) /\
    descending sort_key (Py.sort_reverse sort_key (map row_of functions)).
Proof.
  eexists. split; [apply print_lambda_cost_Ok |].
  apply sort_reverse_descending.
Qed.

(** X10: of two functions with non-zero durations whose daily costs differ
    by more than 0.001, the cheaper one is never reported before the dearer
    one. *)
Theorem report_order_by_cost (functions : list function_data)
                             (f1 f2 : function_data) :
  ~ (avg_duration f1 == 0)%Q -> ~ (avg_duration f2 == 0)%Q ->
  (period_cost f1 + 0.001 < period_cost f2)%Q ->
  exists rows total,
    print_lambda_cost functions = Py.Ok (rows, total) /\
    forall l1 l2, rows = l1 ++ row_of f1 :: l2 -> ~ In (row_of f2) l2.
Proof.
  intros Hd1 Hd2 Hlt.
  destruct (report_rows functions) as (total & Hp & Hdesc).
  do 2 eexists. split; [exact Hp |].
  intros l1 l2 E Hin. rewrite E in Hdesc.
  pose proof (descending_after _ _ _ _ Hdesc _ Hin) as Hle.
  unfold row_of in Hle. rewrite !sort_key_make_row in Hle.
  destruct (Qeq_bool (avg_duration f1) 0) eqn:E1;
    [apply Qeq_bool_iff in E1; contradiction |].
  destruct (Qeq_bool (avg_duration f2) 0) eqn:E2;
    [apply Qeq_bool_iff in E2; contradiction |].
  revert Hlt Hle. generalize (period_cost f1) (period_cost f2).
  intros c1 c2 Hlt Hle.
  destruct (float_format3_bounds c1) as [_ H1].
  destruct (float_format3_bounds c2) as [H2 _].
  lra.
Qed.

(** [cheaper] costs 0.0011016 a day and [ten] 0.3333336. *)
Lemma report_order_by_cost_witness :
  exists rows total,
    print_lambda_cost [cheaper; ten] = Py.Ok (rows, total) /\
    forall l1 l2, rows = l1 ++ row_of cheaper :: l2 -> ~ In (row_of ten) l2.
Proof.
  apply (report_order_by_cost [cheaper; ten] cheaper ten).
  - vm_compute. discriminate.
  - vm_compute. discriminate.
  - vm_compute. reflexivity.
Defined.

(** X11: in the report no row with a positive displayed daily cost comes
    after a row that shows the marker. *)
Theorem marker_rows_last (functions : list function_data) :
  exists rows total,
    print_lambda_cost functions = Py.Ok (rows, total) /\
    forall l1 a l2, rows = l1 ++ a :: l2 -> x5 a = RESULT_NA ->
      forall b, In b l2 -> (shown (x5 b) <= 0)%Q.
Proof.
  destruct (report_rows functions) as (total & Hp & Hdesc).
  do 2 eexists. split; [exact Hp |].
  intros l1 a l2 E Ha b Hin. rewrite E in Hdesc.
  pose proof (descending_after _ _ _ _ Hdesc _ Hin) as Hle.
  unfold sort_key in Hle. rewrite Ha in Hle. exact Hle.
Qed.

(** Two functions without duration before one that costs. *)
Lemma marker_rows_last_witness :
  exists rows total,
    print_lambda_cost [idle; idle_but_invoked; five] = Py.Ok (rows, total) /\
    forall l1 a l2, rows = l1 ++ a :: l2 -> x5 a = RESULT_NA ->
      forall b, In b l2 -> (shown (x5 b) <= 0)%Q.
Proof.
  exact (marker_rows_last [idle; idle_but_invoked; five]).
Defined.

(** * The clients, the metrics and the scan of the regions *)

(** X12: a key id without a secret, or a secret without a key id, is
    ignored: the client is the one built when neither is given; and when
    both are given the profile plays no part. *)
Theorem partial_keys_ignored (client_name region : string)
                             (args : Namespace) :
  (Py.truthy (token_key_id args) = false \/
   Py.truthy (token_secret args) = false ->
   init_boto_client client_name region args =
     init_boto_client client_name region
       {| csv := csv args; token_key_id := None; token_secret := None;
          profile := profile args |}) /\
  (Py.truthy (token_key_id args) = true ->
   Py.truthy (token_secret args) = true ->
   forall other_profile,
     init_boto_client client_name region args =
       init_boto_client client_name region
         {| csv := csv args; token_key_id := token_key_id args;
            token_secret := token_secret args; profile := other_profile |}).
Proof.
  unfold init_boto_client. cbn [token_key_id token_secret profile].
  split.
  - intros [H | H]; rewrite H; [| rewrite Bool.andb_false_r]; reflexivity.
  - intros H1 H2 other. rewrite H1, H2. reflexivity.
Qed.

(** A key id alone, beside the profile [dev]. *)
Lemma partial_keys_ignored_witness :
  init_boto_client "lambda" "us-east-1" half_keyed =
    session_client "dev" "lambda" "us-east-1".
Proof.
  rewrite (proj1 (partial_keys_ignored "lambda" "us-east-1" half_keyed)
                 (or_intror eq_refl)).
  reflexivity.
Defined.

(** X13: a function for which neither metric has a datapoint gets a row
    with the marker in its four derived cells, and adds nothing to the
    total. *)
Theorem no_datapoints_row (cloud : aws) (cloudwatch_client : client)
                          (region : string) (fd : listed)
                          (rows : list row) (total : Q) :
  get_metric_statistics cloud cloudwatch_client "Invocations" "Sum"
                        (listed_FunctionName fd) = [] ->
  get_metric_statistics cloud cloudwatch_client "Duration" "Average"
                        (listed_FunctionName fd) = [] ->
  exists total',
    function_body cloud cloudwatch_client region (rows, total) fd =
      Py.Ok (rows ++ [ {| x0 := listed_FunctionName fd; x1 := region;
                          x2 := listed_MemorySize fd;
                          x3 := RESULT_NA; x4 := RESULT_NA;
                          x5 := RESULT_NA; x6 := RESULT_NA |} ], total') /\
    (total' == total)%Q.
Proof.
  intros Hinv Hdur.
  set (f := {| FunctionName := listed_FunctionName fd; region := region;
               MemorySize := listed_MemorySize fd;
               sum_invocations := 0; avg_duration := 0 |}).
  assert (Hf : fetch cloud cloudwatch_client region fd = Py.Ok f).
  { unfold fetch, get_cloudwatch_metric. rewrite Hinv, Hdur. reflexivity. }
  unfold function_body. rewrite Hf. cbn [Py.bind].
  rewrite (proj2 (loop_body_Ok rows total f)).
  destruct (period_cost_eq f) as (k & p & _ & _ & Hc).
  cbn [avg_duration sum_invocations f] in Hc.
  eexists. split.
  - reflexivity.
  - rewrite Hc. unfold PRICE_PER_INVOCATION. ring.
Qed.

(** [unused] in the sample services. *)
Lemma no_datapoints_row_witness :
  exists total',
    function_body sample_cloud (default_client "cloudwatch" "us-east-1")
                  "us-east-1" ([], 0%Q)
                  {| listed_FunctionName := "unused";
                     listed_MemorySize := 128 |} =
      Py.Ok ([ {| x0 := "unused"; x1 := "us-east-1"; x2 := 128;
                  x3 := RESULT_NA; x4 := RESULT_NA;
                  x5 := RESULT_NA; x6 := RESULT_NA |} ], total') /\
    (total' == 0)%Q.
Proof.
  apply (no_datapoints_row sample_cloud
           (default_client "cloudwatch" "us-east-1") "us-east-1"
           {| listed_FunctionName := "unused"; listed_MemorySize := 128 |}
           [] 0%Q); reflexivity.
Defined.

Lemma for_each_app {S A : Type} (body : S -> A -> Py.result S)
                   (l1 l2 : list A) :
  forall st,
    Py.for_each body st (l1 ++ l2) =
      match Py.for_each body st l1 with
      | Py.Ok st' => Py.for_each body st' l2
      | Py.Raise e => Py.Raise e
      end.
Proof.
  induction l1 as [| x l1 IH]; intros st; cbn [app Py.for_each].
  - reflexivity.
  - destruct (body st x); [apply IH | reflexivity].
Qed.

Section While.
Variables (cloud : aws) (lambda_client cloudwatch_client : client)
          (region : string).

Lemma while_stop (fuel : nat) (response : response) (st : acc) :
  while_next_marker (S fuel) cloud lambda_client cloudwatch_client region
                    (Some ""%string) response st = Some (Py.Ok st).
Proof. reflexivity. Qed.

Lemma while_step (fuel : nat) (marker : option string)
                 (response : response) (st : acc) :
  marker <> Some ""%string ->
  while_next_marker (S fuel) cloud lambda_client cloudwatch_client region
                    marker response st =
    match Functions response with
    | [] => Some (Py.Ok st)
    | _ :: _ =>
        match Py.for_each (function_body cloud cloudwatch_client region)
                          st (Functions response) with
        | Py.Raise e => Some (Py.Raise e)
        | Py.Ok st' =>
            match NextMarker response with
            | None => Some (Py.Ok st')
            | Some next =>
                while_next_marker fuel cloud lambda_client cloudwatch_client
                  region (Some next)
                  (list_functions cloud lambda_client (Some next)) st'
            end
        end
    end.
Proof.
  intros Hm. cbn [while_next_marker].
  destruct marker as [[| a s] |]; [congruence | |];
    destruct (Functions response); reflexivity.
Qed.

(** The loop over the pages of a region lists the functions of the pages up
    to the first empty one. *)
Lemma while_paged (marker : option string) (pages : list (list listed)) :
  paged cloud lambda_client marker pages ->
  marker <> Some ""%string ->
  exists fuel0, forall fuel st, (fuel0 <= fuel)%nat ->
    while_next_marker fuel cloud lambda_client cloudwatch_client region
                      marker (list_functions cloud lambda_client marker) st =
      Some (Py.for_each (function_body cloud cloudwatch_client region)
                        st (until_empty pages)).
Proof.
  induction 1 as [marker Hnone | marker Hstop
                 | marker next pages Hnext Hne Hp IH]; intros Hm.
  - exists 1%nat. intros fuel st Hfuel.
    destruct fuel as [| fuel]; [lia |]. rewrite (while_step _ _ _ _ Hm).
    rewrite Hnone.
    destruct (Functions (list_functions cloud lambda_client marker))
      as [| fd fs]; [reflexivity |].
    cbn [until_empty]. rewrite app_nil_r.
    destruct (Py.for_each _ st (fd :: fs)); reflexivity.
  - exists 2%nat. intros fuel st Hfuel.
    destruct fuel as [| [| fuel]]; [lia | lia |].
    rewrite (while_step _ _ _ _ Hm). rewrite Hstop.
    destruct (Functions (list_functions cloud lambda_client marker))
      as [| fd fs]; [reflexivity |].
    cbn [until_empty]. rewrite app_nil_r.
    destruct (Py.for_each _ st (fd :: fs)); [| reflexivity].
    apply while_stop.
  - destruct IH as [fuel0 IH]; [congruence |].
    exists (S fuel0). intros fuel st Hfuel.
    destruct fuel as [| fuel]; [lia |]. rewrite (while_step _ _ _ _ Hm).
    rewrite Hnext.
    destruct (Functions (list_functions cloud lambda_client marker))
      as [| fd fs]; [reflexivity |].
    cbn [until_empty]. rewrite for_each_app.
    destruct (Py.for_each _ st (fd :: fs)); [| reflexivity].
    apply IH. lia.
Qed.

End While.

Lemma region_pages_fuel (cloud : aws) (args : Namespace) (region : string)
                        (pages : list (list listed)) :
  paged cloud (init_boto_client "lambda" region args) None pages ->
  exists fuel0, forall fuel st, (fuel0 <= fuel)%nat ->
    region_body fuel cloud args st region =
      Some (Py.for_each
              (function_body cloud
                 (init_boto_client "cloudwatch" region args) region)
              st (until_empty pages)).
Proof.
  intros Hp. unfold region_body.
  apply (while_paged cloud _ _ region None pages Hp). discriminate.
Qed.

(** X14: when the pages of a region are chained by their markers, the scan
    of the region lists the functions of the pages in their order, up to the
    last page or to the first page without functions; the pages after an
    empty page are never listed, whatever its marker. *)
Theorem region_pages (cloud : aws) (args : Namespace) (region : string)
                     (pages : list (list listed)) :
  paged cloud (init_boto_client "lambda" region args) None pages ->
  exists fuel0, forall fuel st, (fuel0 <= fuel)%nat ->
    region_body fuel cloud args st region =
      Some (Py.for_each
              (function_body cloud
                 (init_boto_client "cloudwatch" region args) region)
              st (until_empty pages)).
Proof.
  exact (region_pages_fuel cloud args region pages).
Qed.

(** The pages of [eu-west-1] in the sample services: an empty page that
    names a further page. *)
Lemma sample_pages_eu :
  paged sample_cloud (default_client "lambda" "eu-west-1") None
        [ []; [ {| listed_FunctionName := "hidden";
                   listed_MemorySize := 256 |} ] ].
Proof.
  apply (paged_next sample_cloud (default_client "lambda" "eu-west-1")
                    None "page-2"
                    [ [ {| listed_FunctionName := "hidden";
                           listed_MemorySize := 256 |} ] ]).
  - reflexivity.
  - discriminate.
  - apply (paged_last sample_cloud (default_client "lambda" "eu-west-1")
                      (Some "page-2"%string)).
    reflexivity.
Defined.

(** In [eu-west-1] nothing is listed. *)
Lemma region_pages_witness :
  exists fuel0, forall fuel st, (fuel0 <= fuel)%nat ->
    region_body fuel sample_cloud no_args st "eu-west-1" = Some (Py.Ok st).
Proof.
  exact (region_pages sample_cloud no_args "eu-west-1" _ sample_pages_eu).
Defined.

(** Listed functions whose metrics are read are handled as the functions
    they describe. *)
Lemma for_each_fetched (cloud : aws) (cloudwatch_client : client)
                       (region : string) (fds : list listed)
                       (found : list function_data) :
  Forall2 (fun fd f => fetch cloud cloudwatch_client region fd = Py.Ok f)
          fds found ->
  forall st,
    Py.for_each (function_body cloud cloudwatch_client region) st fds =
      loop st found.
Proof.
  unfold loop.
  induction 1 as [| fd f fds found Hf _ IH]; intros st;
    cbn [Py.for_each]; [reflexivity |].
  unfold function_body at 1. rewrite Hf. cbn [Py.bind].
  destruct (loop_body st f); [apply IH | reflexivity].
Qed.

Lemma for_regions_discovered (cloud : aws) (args : Namespace)
                             (regions : list string)
                             (found : list function_data) :
  discovered cloud args regions found ->
  exists fuel0, forall fuel st, (fuel0 <= fuel)%nat ->
    for_regions fuel cloud args st regions = Some (loop st found).
Proof.
  induction 1 as [| region regions pages found rest Hp Hf _ IH].
  - exists 0%nat. intros fuel st _. reflexivity.
  - destruct (region_pages_fuel cloud args region pages Hp) as [fuelA HA].
    destruct IH as [fuelB HB].
    exists (Nat.max fuelA fuelB). intros fuel [rows total] Hfuel.
    cbn [for_regions]. rewrite HA by lia.
    rewrite (for_each_fetched _ _ _ _ _ Hf).
    unfold loop at 2. rewrite for_each_app. fold (loop (rows, total) found).
    rewrite loop_Ok. rewrite HB by lia. reflexivity.
Qed.

(** X15: when the pages of every region are chained by their markers and
    the metrics of the listed functions are read, a run puts out what the
    report of the functions found holds: its rows as the console table and,
    when a CSV file is asked for, under the seven headers, and its total. *)
Theorem run_reports_found (cloud : aws) (args : Namespace)
                          (found : list function_data) :
  discovered cloud args (get_available_regions cloud) found ->
  exists fuel0 rows total,
    print_lambda_cost found = Py.Ok (rows, total) /\
    forall fuel, (fuel0 <= fuel)%nat ->
      print_lambda_cost_on fuel cloud args =
        Some (Py.Ok
          {| console := print_table_to_console rows;
             total := total;
             csv_file :=
               if Py.truthy (csv args)
               then Some (map Str TABLE_HEADERS :: map values rows)
               else None |}).
Proof.
  intros Hd.
  destruct (for_regions_discovered _ _ _ _ Hd) as [fuel0 H0].
  exists fuel0. do 2 eexists. split; [apply print_lambda_cost_Ok |].
  intros fuel Hfuel. unfold print_lambda_cost_on, list_available_lambda_regions.
  rewrite (H0 fuel _ Hfuel). rewrite loop_Ok. reflexivity.
Qed.

Lemma sample_discovered :
  discovered sample_cloud no_args (get_available_regions sample_cloud)
             sample_found.
Proof.
  apply (discovered_cons sample_cloud no_args "us-east-1" ["eu-west-1"%string]
           [ [ {| listed_FunctionName := "resize"; listed_MemorySize := 512 |};
               {| listed_FunctionName := "unused"; listed_MemorySize := 128 |} ];
             [ {| listed_FunctionName := "mailer";
                  listed_MemorySize := 1000 |} ] ]
           sample_found []).
  - apply (paged_next sample_cloud (default_client "lambda" "us-east-1")
                      None "page-2"
                      [ [ {| listed_FunctionName := "mailer";
                             listed_MemorySize := 1000 |} ] ]).
    + reflexivity.
    + discriminate.
    + apply (paged_last sample_cloud (default_client "lambda" "us-east-1")
                        (Some "page-2"%string)).
      reflexivity.
  - repeat constructor.
  - apply (discovered_cons sample_cloud no_args "eu-west-1" [] _ [] []
                           sample_pages_eu).
    + constructor.
    + constructor.
Defined.

(** The sample services: three functions are found, one of them without
    datapoints; [hidden] is not among them. *)
Lemma run_reports_found_witness :
  exists fuel0 rows total,
    print_lambda_cost sample_found = Py.Ok (rows, total) /\
    forall fuel, (fuel0 <= fuel)%nat ->
      print_lambda_cost_on fuel sample_cloud no_args =
        Some (Py.Ok {| console := print_table_to_console rows;
                       total := total;
                       csv_file := None |}).
Proof.
  exact (run_reports_found sample_cloud no_args sample_found
                           sample_discovered).
Defined.

Lemma console_projection (rows : list row) :
  print_table_to_console rows =
    map (pick [0; 1; 5; 6]%nat) (map Str TABLE_HEADERS :: map values rows).
Proof.
  unfold print_table_to_console. cbn [map]. f_equal.
  rewrite map_map. apply map_ext. intros x. reflexivity.
Qed.

(** X16: whenever a run writes a CSV file, the console table is that file
    restricted to its columns 0, 1, 5 and 6, header line included; and a
    CSV file is written exactly when the [--csv] argument is a non-empty
    text. *)
Theorem console_is_csv_projection (fuel : nat) (cloud : aws)
                                  (args : Namespace) (o : output) :
  print_lambda_cost_on fuel cloud args = Some (Py.Ok o) ->
  (csv_file o = None <-> Py.truthy (csv args) = false) /\
  forall lines, csv_file o = Some lines ->
    console o = map (pick [0; 1; 5; 6]%nat) lines.
Proof.
  unfold print_lambda_cost_on. intros H.
  destruct (for_regions fuel cloud args ([], 0%Q)
                        (list_available_lambda_regions cloud))
    as [[[rows t] | e] |]; [| discriminate | discriminate].
  injection H as <-. cbn [csv_file console].
  destruct (Py.truthy (csv args)).
  - split; [split; discriminate |].
    intros lines E. injection E as <-. apply console_projection.
  - split; [split; reflexivity | discriminate].
Qed.

(** A run on the sample services with [--csv out.csv]. *)
Lemma console_is_csv_projection_witness :
  exists o lines,
    print_lambda_cost_on 3 sample_cloud csv_args = Some (Py.Ok o) /\
    csv_file o = Some lines /\
    List.length lines = 4%nat /\
    console o = map (pick [0; 1; 5; 6]%nat) lines.
Proof.
  destruct (print_lambda_cost_on 3 sample_cloud csv_args)
    as [[o | e] |] eqn:E; [| vm_compute in E; discriminate
                           | vm_compute in E; discriminate].
  destruct (console_is_csv_projection 3 sample_cloud csv_args o E)
    as [_ H].
  destruct (csv_file o) as [lines |] eqn:El.
  - exists o, lines. split; [reflexivity |]. split; [exact El |].
    split; [| exact (H lines eq_refl)].
    vm_compute in E. injection E as <-. vm_compute in El.
    injection El as <-. reflexivity.
  - vm_compute in E. injection E as <-. vm_compute in El. discriminate.
Defined.

(** X17: while every page of a region holds functions and names a further
    page, the scan of the region does not come to an end: with no amount of
    fuel does it return its rows and total. *)
Theorem endless_pages (cloud : aws) (args : Namespace) (region : string) :
  (forall marker,
      let page := list_functions cloud
                    (init_boto_client "lambda" region args) marker in
      Functions page <> [] /\
      exists next, NextMarker page = Some next /\ next <> ""%string) ->
  forall fuel st st',
    region_body fuel cloud args st region <> Some (Py.Ok st').
Proof.
  intros Hpages. unfold region_body.
  set (lc := init_boto_client "lambda" region args) in *.
  set (cw := init_boto_client "cloudwatch" region args).
  assert (H : forall fuel marker st st',
             marker <> Some ""%string ->
             while_next_marker fuel cloud lc cw region marker
               (list_functions cloud lc marker) st <> Some (Py.Ok st')).
  { induction fuel as [| fuel IH]; intros marker st st' Hm.
    - discriminate.
    - rewrite (while_step _ _ _ _ _ _ _ _ Hm).
      destruct (Hpages marker) as [Hne (next & Hnext & Hnx)].
      cbv zeta in Hne, Hnext. rewrite Hnext.
      destruct (Functions (list_functions cloud lc marker)) as [| fd fs];
        [congruence |].
      destruct (Py.for_each _ st (fd :: fs)); [| discriminate].
      apply IH. congruence. }
  intros fuel st st'. apply H. discriminate.
Qed.

(** The services whose every page names the page [again]. *)
Lemma endless_pages_witness :
  region_body 1000 looping_cloud no_args ([], 0%Q) "us-east-1" <>
    Some (Py.Ok ([], 0%Q)) /\
  region_body 0 looping_cloud no_args ([], 0%Q) "us-east-1" = None.
Proof.
  split; [| reflexivity].
  apply (endless_pages looping_cloud no_args "us-east-1").
  intros marker. cbv zeta. split; [discriminate |].
  exists "again"%string. split; [reflexivity | discriminate].
Defined.

(** * The program on binary64 floats *)

Section Binary64.
Import PrimFloat SpecFloat FloatOps FloatAxioms.
Set Warnings "-inexact-float".










(** What the loop has added up when it ends without an exception. *)
Lemma loop_binary64 (functions : list binary64.function_data) :
  forall rows total rows' total',
    binary64.loop (rows, total) functions = Py.Ok (rows', total') ->
    Forall (fun f =>
              binary64.calculate_cost (binary64.avg_duration f)
                (binary64.sum_invocations f) (binary64.MemorySize f) =
                Py.Ok (binary64.period_cost f))
           functions /\
    total' = fold_left (fun t f => (t + binary64.period_cost f * 30)%float)
                       functions total.
Proof.
  unfold binary64.loop.
  induction functions as [| f functions IH]; intros rows total rows' total' H;
    cbn [Py.for_each fold_left] in *.
  - injection H as _ <-. split; [constructor | reflexivity].
  - destruct (binary64.loop_body (rows, total) f) as [[rows1 total1] | e]
      eqn:Eb; [| discriminate].
    unfold binary64.loop_body in Eb.
    destruct (binary64.calculate_cost (binary64.avg_duration f)
                (binary64.sum_invocations f) (binary64.MemorySize f))
      as [cost | e] eqn:Ec; cbn [Py.bind] in Eb; [| discriminate].
    destruct (binary64.make_row f cost) as [x | e];
      cbn [Py.bind] in Eb; [| discriminate].
    injection Eb as <- <-.
    assert (Ecost : binary64.period_cost f = cost)
      by (unfold binary64.period_cost; rewrite Ec; reflexivity).
    destruct (IH _ _ _ _ H) as [Hall Htotal].
    split.
    + constructor; [rewrite Ecost; exact Ec | exact Hall].
    + rewrite Ecost. exact Htotal.
Qed.

(** C6 as stated fails: the same three functions give the total
    0.16650000000000001, printed 0.167, in one order, and the total
    0.16649999999999998, printed 0.166, in another. *)
Lemma total_order_counterexample :
  exists rows rows',
    Permutation [binary64.small; binary64.medium; binary64.large]
                [binary64.small; binary64.large; binary64.medium] /\
    binary64.print_lambda_cost
      [binary64.small; binary64.medium; binary64.large] =
      Py.Ok (rows, 0.16650000000000001%float, binary64.Fixed3 false 167) /\
    binary64.print_lambda_cost
      [binary64.small; binary64.large; binary64.medium] =
      Py.Ok (rows', 0.16649999999999998%float, binary64.Fixed3 false 166) /\
    (0.16650000000000001 =? 0.16649999999999998)%float = false.
Proof.
  do 2 eexists. split; [apply perm_skip, perm_swap |].
  split; [vm_compute; reflexivity |].
  split; vm_compute; reflexivity.
Qed.

(** C6, amended: the accumulated monthly total is the sum of the monthly
    estimates of all records, each the value the estimator computed (also
    for a record whose row shows the marker), added as doubles in the order
    the records are supplied; in exact arithmetic it is the same for every
    permutation of the records. *)
Theorem total_is_sum :
  (forall (functions : list binary64.function_data) rows total printed,
      binary64.print_lambda_cost functions = Py.Ok (rows, total, printed) ->
      Forall (fun f =>
                binary64.calculate_cost (binary64.avg_duration f)
                  (binary64.sum_invocations f) (binary64.MemorySize f) =
                  Py.Ok (binary64.period_cost f))
             functions /\
      total = fold_left (fun t f => (t + binary64.period_cost f * 30)%float)
                        functions 0%float) /\
  (forall functions functions' : list function_data,
      exists rows total,
        print_lambda_cost functions = Py.Ok (rows, total) /\
        Forall (fun f => calculate_cost (avg_duration f) (sum_invocations f)
                                        (MemorySize f) =
                           Py.Ok (period_cost f))
               functions /\
        (total == Qsum (map (fun f => period_cost f * 30) functions))%Q /\
        (Permutation functions functions' ->
         exists rows' total',
           print_lambda_cost functions' = Py.Ok (rows', total') /\
           (total' == total)%Q)).
Proof.
  split.
  - intros functions rows total printed H.
    unfold binary64.print_lambda_cost in H.
    destruct (binary64.loop ([], 0%float) functions) as [[rows0 total0] | e]
      eqn:El; cbn [Py.bind fst snd] in H; [| discriminate].
    injection H as _ <- _.
    exact (loop_binary64 functions _ _ _ _ El).
  - intros functions functions'.
    do 2 eexists. split; [apply print_lambda_cost_Ok |].
    split; [| split].
    + apply Forall_forall. intros f _.
      exact (proj1 (loop_body_Ok [] 0%Q f)).
    + rewrite (fold_left_total (fun f => period_cost f * 30)%Q). ring.
    + intros Hperm. do 2 eexists. split; [apply print_lambda_cost_Ok |].
      rewrite !(fold_left_total (fun f => period_cost f * 30)%Q).
      apply Qplus_inj_l, Qsum_perm, Permutation_map, Permutation_sym, Hperm.
Qed.

(** Three functions as doubles, and two functions in both orders in exact
    arithmetic; the second one's row shows the marker and its 0.006 is part
    of the total. *)
Lemma total_is_sum_witness :
  (exists rows printed,
      binary64.print_lambda_cost
        [binary64.small; binary64.medium; binary64.large] =
        Py.Ok (rows, (0 + binary64.period_cost binary64.small * 30
                        + binary64.period_cost binary64.medium * 30
                        + binary64.period_cost binary64.large * 30)%float,
               printed)) /\
  (exists rows total rows' total',
      print_lambda_cost [busy; idle_but_invoked] = Py.Ok (rows, total) /\
      print_lambda_cost [idle_but_invoked; busy] = Py.Ok (rows', total') /\
      (total == 0.08106 + 0.006)%Q /\
      (total' == total)%Q).
Proof.
  split.
  - destruct (binary64.print_lambda_cost
                [binary64.small; binary64.medium; binary64.large])
      as [[[rows total] printed] | e] eqn:E;
      [| vm_compute in E; discriminate].
    destruct (proj1 total_is_sum _ _ _ _ E) as [_ Htotal].
    exists rows, printed. rewrite Htotal. reflexivity.
  - destruct (proj2 total_is_sum [busy; idle_but_invoked]
                                 [idle_but_invoked; busy])
      as (rows & total & Hp & _ & Hsum & Hperm).
    destruct (Hperm (perm_swap _ _ _)) as (rows' & total' & Hp' & Heq).
    exists rows, total, rows', total'.
    split; [exact Hp |]. split; [exact Hp' |]. split; [| exact Heq].
    rewrite Hsum. vm_compute. reflexivity.
Defined.

(** C5, at the failing input: [cheaper] is discovered before [dearer]; both
    daily costs show as 0.001, so both sort keys are the double of 0.001 and
    the sort leaves the two rows as they are, the monthly cost 0.033 above
    the monthly cost 0.042. *)
Theorem report_order_failing_input :
  exists r1 r2 total printed,
    binary64.print_lambda_cost [binary64.cheaper; binary64.dearer] =
      Py.Ok ([r1; r2], total, printed) /\
    binary64.x4 r1 = binary64.Int 2700 /\
    binary64.x4 r2 = binary64.Int 3400 /\
    binary64.x5 r1 = binary64.Formatted (binary64.Fixed3 false 1) /\
    binary64.x5 r2 = binary64.Formatted (binary64.Fixed3 false 1) /\
    binary64.x6 r1 = binary64.Formatted (binary64.Fixed3 false 33) /\
    binary64.x6 r2 = binary64.Formatted (binary64.Fixed3 false 42) /\
    binary64.sort_key r1 = 0.001%float /\
    binary64.sort_key r2 = 0.001%float /\
    (binary64.period_cost binary64.cheaper * 30 <?
     binary64.period_cost binary64.dearer * 30)%float = true.
Proof.
  do 4 eexists. split; [vm_compute; reflexivity |].
  repeat split; vm_compute; reflexivity.
Qed.

End Binary64.
